(** * oidcendpoint: RP-initiated logout and token introspection

    A shallow embedding of [oidcendpoint/oidc/session.py] (the [Session]
    end-session endpoint) and of [oidcendpoint/oauth2/introspection.py]
    (the [Introspection] endpoint), followed by the properties the
    specification states about them.

    Python [str] values are byte strings ([string]); a Python [dict] whose
    iteration order matters is an association list in insertion order, a
    registry that is only looked up is a [gmap]; a raised exception is the
    [Raise] branch of [result]. *)

From Stdlib Require Import ZArith List String Ascii Bool Lia.
From Stdlib Require QArith_base.
From stdpp Require Import base option gmap strings list.

Local Open Scope string_scope.
Local Open Scope list_scope.

(** ** Exceptions and the error monad *)

(** The exceptions the two endpoints raise or let through. *)
Inductive exn : Type :=
| InvalidRequest (msg : string)
| ValueError (msg : string)
| KeyError (key : string)
| IndexError
| TypeError
| JWSException (msg : string).

Inductive result (A : Type) : Type :=
| Ok (a : A)
| Raise (e : exn).

Arguments Ok {A} a.
Arguments Raise {A} e.

Definition rbind {A B : Type} (m : result A) (k : A -> result B) : result B :=
  match m with
  | Ok a => k a
  | Raise e => Raise e
  end.

#[global] Instance result_ret : MRet result := fun _ a => Ok a.
#[global] Instance result_bind : MBind result := fun _ _ k m => rbind m k.

(** [d[key]] on a field that may be missing from a Python dict. *)
Definition getitem {A : Type} (key : string) (field : option A) : result A :=
  match field with
  | Some a => Ok a
  | None => Raise (KeyError key)
  end.

(** [l[0]] on a Python list. *)
Definition first_item {A : Type} (l : list A) : result A :=
  match l with
  | x :: _ => Ok x
  | [] => Raise IndexError
  end.

(** The error kinds of the specification, as the exceptions the code raises
    for them. *)
Definition MalformedRequest : exn := InvalidRequest "Cookie error".
Definition SessionMismatch : exn := ValueError "Wrong ID Token hint".
Definition UnknownSession : exn := ValueError "Can't find any corresponding session".
Definition UnregisteredRedirectURI : exn :=
  ValueError "Unregistered post_logout_redirect_uri".

(** ** [urllib.parse]: [urlencode] and [splitquery] *)

Definition hex_digit (n : N) : ascii :=
  match n with
  | 0%N => "0" | 1%N => "1" | 2%N => "2" | 3%N => "3"
  | 4%N => "4" | 5%N => "5" | 6%N => "6" | 7%N => "7"
  | 8%N => "8" | 9%N => "9" | 10%N => "A" | 11%N => "B"
  | 12%N => "C" | 13%N => "D" | 14%N => "E" | _ => "F"
  end%char.

Definition in_range (lo hi : ascii) (c : ascii) : bool :=
  (N_of_ascii lo <=? N_of_ascii c)%N && (N_of_ascii c <=? N_of_ascii hi)%N.

(** Letters, digits and [_.-~] are never quoted. *)
Definition always_safe (c : ascii) : bool :=
  in_range "A" "Z" c || in_range "a" "z" c || in_range "0" "9" c
  || Ascii.eqb c "_" || Ascii.eqb c "." || Ascii.eqb c "-" || Ascii.eqb c "~".

(** [quote_plus(s, safe='')] on one byte: a space becomes [+], a byte that
    is not always safe becomes [%XX]. *)
Definition quote_plus_byte (c : ascii) : string :=
  if Ascii.eqb c " " then "+"
  else if always_safe c then String c ""
  else String "%" (String (hex_digit (N_of_ascii c / 16))
                  (String (hex_digit (N_of_ascii c mod 16)) "")).

Fixpoint quote_plus (s : string) : string :=
  match s with
  | "" => ""
  | String c s' => quote_plus_byte c +:+ quote_plus s'
  end.

Fixpoint join (sep : string) (l : list string) : string :=
  match l with
  | [] => ""
  | [x] => x
  | x :: l' => x +:+ sep +:+ join sep l'
  end.

(** [urlencode(query)] for a dict of [str] values, in the dict's order. *)
Definition urlencode (query : list (string * string)) : string :=
  join "&" (map (fun kv => quote_plus (fst kv) +:+ "=" +:+ quote_plus (snd kv)) query).

(** [url.rpartition('?')] when the delimiter occurs. *)
Fixpoint rpartition_query (url : string) : option (string * string) :=
  match url with
  | "" => None
  | String c rest =>
      match rpartition_query rest with
      | Some (path, query) => Some (String c path, query)
      | None => if Ascii.eqb c "?" then Some ("", rest) else None
      end
  end.

(** What [splitquery] returns: [(path, query)], [query] being [None] when
    the URL has no [?]. *)
Definition uri_parts : Type := string * option string.

Definition splitquery (url : string) : uri_parts :=
  match rpartition_query url with
  | Some (path, query) => (path, Some query)
  | None => (url, None)
  end.

(** ** Data model *)

(** A client registration, [cdb[client_id]]: a dict in which every key used
    by the end-session endpoint may be missing. *)
Record ClientInfo : Type := {
  ci_client_id : option string;
  backchannel_logout_uri : option string;
  frontchannel_logout_uri : option string;
  frontchannel_logout_session_required : option bool;
  (* the entries are what [splitquery] returns: the membership test of
     [process_request] compares such a pair with them *)
  post_logout_redirect_uris : option (list uri_parts);
  id_token_signed_response_alg : option string
}.

(** Modelled from the spec: the session record of the session store
    ([oidcendpoint.session.SessionDB], not part of these sources). It holds
    the client of the original authentication request,
    [session['authn_req']['client_id']], and whether it has been revoked. *)
Record SessionInfo : Type := {
  authn_req_client_id : string;
  revoked : bool
}.

(** Modelled from the spec: [SessionDB.revoke_session(sid)], missing from
    these sources. Revocation marks the session, is idempotent, and an
    unknown sid is not an error. *)
Definition revoke_session (sdb : gmap string SessionInfo) (sid : string)
  : gmap string SessionInfo :=
  alter (fun s => {| authn_req_client_id := authn_req_client_id s;
                     revoked := true |}) sid sdb.

(** Modelled from the spec: the single-sign-on index
    ([oidcendpoint.sso_db.SSODb], not part of these sources), by the four
    queries of its interface. *)
Record SSODb : Type := {
  get_uid_by_sid : string -> string;
  get_sids_by_uid : string -> list string;
  get_sub_by_sid : string -> string;
  get_sids_by_sub : string -> list string
}.

(** The verified ID token of an [id_token_hint]. *)
Record IdToken : Type := {
  it_sub : option string;
  it_alg : string
}.

(** The fields of an [EndSessionRequest] the endpoint reads;
    [verified_id_token_hint] is the claim named
    [verified_claim_name("id_token_hint")]. *)
Record EndSessionRequest : Type := {
  id_token_hint : option string;
  verified_id_token_hint : option IdToken;
  post_logout_redirect_uri : option string;
  state : option string
}.

(** The [redirect_uri] put in the confirmation token: the request's own
    string, or the first registered entry as it is stored. *)
Inductive redirect_target : Type :=
| RequestedUri (uri : string)
| RegisteredEntry (entry : uri_parts).

(** The two payloads the endpoint signs. *)
Inductive payload : Type :=
| LogoutConfirmation (sid client_id : string) (redirect_uri : redirect_target)
| LogoutToken (sub sid : string) (* with events: {BACK_CHANNEL_LOGOUT_EVENT: {}} *).

(** The arguments of [JWT(keyjar, iss=, lifetime=, sign_alg=)] and its
    [with_jti] attribute. *)
Record JWT : Type := {
  jwt_iss : string;
  jwt_lifetime : Z;
  jwt_sign_alg : string;
  with_jti : bool
}.

(** The cookie dealer: its cookie name and [get_cookie_value], which
    returns the value tuple (here its first component), [None], or raises. *)
Record CookieDealer : Type := {
  name : string;
  get_cookie_value : option string -> string -> result (option string)
}.

(** The endpoint context. The collaborators outside these sources are
    fields: [pack] is cryptojwt's [JWT.pack(payload, recv)] with the
    context's key jar, [httpc_post] the HTTP client's [post(url, data,
    verify)] answering with a status code, [cookie_loads] the decoding
    [json.loads(as_unicode(b64d(as_bytes(value))))] of a cookie value.

    The HTTP client is modelled for the relying parties that answer: a
    [post] that raises instead (a refused connection, a timeout), which
    [logout_all_clients] would not catch, is outside this model, and what
    is proved about the requests sent holds of the runs in which every
    relying party answers. *)
Record EndpointContext : Type := {
  issuer : string;
  cdb : gmap string ClientInfo;
  sdb : gmap string SessionInfo;
  sso_db : SSODb;
  cookie_dealer : CookieDealer;
  id_token_signing_alg_values_supported : option (list string);
  post_logout_page : option string;
  verify_ssl : bool;
  pack : JWT -> payload -> string -> string;
  httpc_post : string -> string -> bool -> Z;
  cookie_loads : string -> result (gmap string string)
}.

(** The [Session] endpoint: its context and [kwargs['signing_alg']]. *)
Record Session : Type := {
  endpoint_context : EndpointContext;
  signing_alg : option string
}.

(** ** Effects: logging and outbound HTTP *)

Inductive event : Type :=
| LogInfo (msg : string)
| HttpPost (url data : string) (verify : bool).

(** A computation that may raise and leaves a trace of events. *)
Record io (A : Type) : Type := IO {
  outcome : result A;
  trace : list event
}.

Arguments IO {A} outcome trace.
Arguments outcome {A} _.
Arguments trace {A} _.

Definition io_bind {A B : Type} (m : io A) (k : A -> io B) : io B :=
  match outcome m with
  | Ok a => IO (outcome (k a)) (trace m ++ trace (k a))
  | Raise e => IO (Raise e) (trace m)
  end.

#[global] Instance io_ret : MRet io := fun _ a => IO (Ok a) [].
#[global] Instance io_mbind : MBind io := fun _ _ k m => io_bind m k.

Definition lift {A : Type} (r : result A) : io A := IO r [].
Definition emit (e : event) : io unit := IO (Ok tt) [e].

(** The HTTP requests of a trace, in order. *)
Definition posts (t : list event) : list (string * string) :=
  omap (fun e => match e with
                 | HttpPost url data _ => Some (url, data)
                 | LogInfo _ => None
                 end) t.

(** A Python dict in insertion order: assigning to a key that is present
    replaces its value in place. *)
Fixpoint dict_set {V : Type} (k : string) (v : V) (d : list (string * V))
  : list (string * V) :=
  match d with
  | [] => [(k, v)]
  | (k', v') :: d' =>
      if String.eqb k k' then (k, v) :: d' else (k', v') :: dict_set k v d'
  end.

(** A [for] loop whose body may raise, threading the loop's variables. *)
Fixpoint for_each {A S : Type} (body : S -> A -> result S) (items : list A)
  (st : S) : result S :=
  match items with
  | [] => Ok st
  | x :: items' => st' ← body st x; for_each body items' st'
  end.

(** A [for] loop with effects and no loop variables. *)
Fixpoint io_for_each {A : Type} (body : A -> io unit) (items : list A) : io unit :=
  match items with
  | [] => mret tt
  | x :: items' => _ ← body x; io_for_each body items'
  end.

(** ** [session.py] *)

Definition dquote : string := String "034"%char "".

Definition do_front_channel_logout_iframe (cinfo : ClientInfo) (iss sid : string)
  : result string :=
  frontchannel_logout_uri ← getitem "frontchannel_logout_uri"
                              (frontchannel_logout_uri cinfo);
  let flsr := match frontchannel_logout_session_required cinfo with
              | Some b => b
              | None => false
              end in
  if flsr then
    let _query := urlencode [("iss", iss); ("sid", sid)] in
    Ok ("<iframe src=" +:+ dquote +:+ frontchannel_logout_uri +:+ "?" +:+ _query
        +:+ dquote +:+ ">")
  else
    Ok ("<iframe src=" +:+ dquote +:+ frontchannel_logout_uri +:+ dquote +:+ ">").

Section SessionEndpoint.

Variable self : Session.

Let _cntx : EndpointContext := endpoint_context self.

Definition do_back_channel_logout (cinfo : ClientInfo) (sub sid : string)
  : result (string * string) :=
  back_channel_logout_uri ← getitem "backchannel_logout_uri"
                              (backchannel_logout_uri cinfo);
  let payload := LogoutToken sub sid in
  alg ← match id_token_signed_response_alg cinfo with
        | Some alg => Ok alg
        | None =>
            algs ← getitem "id_token_signing_alg_values_supported"
                     (id_token_signing_alg_values_supported _cntx);
            first_item algs
        end;
  let _jws := {| jwt_iss := issuer _cntx; jwt_lifetime := 86400;
                 jwt_sign_alg := alg; with_jti := true |} in
  recv ← getitem "client_id" (ci_client_id cinfo);
  let sjwt := pack _cntx _jws payload recv in
  Ok (back_channel_logout_uri, sjwt).

(** Lines 117-121 of [logout_all_clients]: the dict [_client_sid]. *)
Definition client_sid (sid : string) : result (list (string * string)) :=
  let uid := get_uid_by_sid (sso_db _cntx) sid in
  for_each
    (fun _client_sid usid =>
       session ← getitem usid (sdb _cntx !! usid);
       Ok (dict_set (authn_req_client_id session) usid _client_sid))
    (get_sids_by_uid (sso_db _cntx) uid) [].

(** Lines 123-136: one step of the loop that fills [bc_logouts] and
    [fc_iframes]. *)
Definition classify_client
  (st : list (string * (string * string)) * list string) (item : string * string)
  : result (list (string * (string * string)) * list string) :=
  let '(bc_logouts, fc_iframes) := st in
  let '(_cid, _csid) := item in
  cinfo ← getitem _cid (cdb _cntx !! _cid);
  if bool_decide (is_Some (backchannel_logout_uri cinfo)) then
    let _sub := get_sub_by_sid (sso_db _cntx) _csid in
    spec ← do_back_channel_logout cinfo _sub _csid;
    Ok (dict_set _cid spec bc_logouts, fc_iframes)
  else if bool_decide (is_Some (frontchannel_logout_uri cinfo)) then
    iframe ← do_front_channel_logout_iframe cinfo (issuer _cntx) _csid;
    Ok (bc_logouts, fc_iframes ++ [iframe])
  else Ok (bc_logouts, fc_iframes).

(** Lines 139-150: the delivery of one back-channel logout token. *)
Definition deliver_logout_token (item : string * (string * string)) : io unit :=
  let '(_cid, (_url, sjwt)) := item in
  _ ← emit (LogInfo ("logging out from " +:+ _cid +:+ " at " +:+ _url));
  let data := "logout_token=" +:+ sjwt in
  _ ← emit (HttpPost _url data (verify_ssl _cntx));
  let status_code := httpc_post _cntx _url data (verify_ssl _cntx) in
  if (status_code <? 300)%Z then emit (LogInfo ("Logged out from " +:+ _cid))
  else if (status_code >=? 400)%Z then
    emit (LogInfo ("failed to logout from " +:+ _cid))
  else mret tt.

Definition logout_all_clients (sid client_id : string) : io (list string) :=
  _client_sid ← lift (client_sid sid);
  '(bc_logouts, fc_iframes) ← lift (for_each classify_client _client_sid ([], []));
  _ ← io_for_each deliver_logout_token bc_logouts;
  mret fc_iframes.

(** The result is [None] when the function falls off its end. *)
Definition logout_from_client (sid client_id : string) : io (option (list string)) :=
  cinfo ← lift (getitem client_id (cdb _cntx !! client_id));
  if bool_decide (is_Some (backchannel_logout_uri cinfo)) then
    let _sub := get_sub_by_sid (sso_db _cntx) sid in
    bc_logout ← lift (do_back_channel_logout cinfo _sub sid);
    mret (Some [])
  else if bool_decide (is_Some (frontchannel_logout_uri cinfo)) then
    _iframe ← lift (do_front_channel_logout_iframe cinfo (issuer _cntx) sid);
    mret (Some [_iframe])
  else mret None.

Definition do_verified_logout (sid client_id : string) (alla : bool)
  : io (option (list string)) :=
  if alla then
    _iframes ← logout_all_clients sid client_id;
    mret (Some _iframes)
  else logout_from_client sid client_id.

End SessionEndpoint.

Section ProcessRequest.

Variable self : Session.

Let _cntx : EndpointContext := endpoint_context self.

(** Lines 191-205 of [process_request]: the sid of the session cookie, the
    empty string when there is no cookie. *)
Definition cookie_sid (cookie : option string) : result string :=
  let _cookie_name := name (cookie_dealer _cntx) in
  part ← match get_cookie_value (cookie_dealer _cntx) cookie _cookie_name with
         | Raise IndexError => Raise (InvalidRequest "Cookie error")
         | Raise (KeyError _) => Ok None
         | r => r
         end;
  match part with
  | Some value =>
      _cookie_info ← cookie_loads _cntx value;
      getitem "sid" (_cookie_info !! "sid")
  | None => Ok ""
  end.

(** Lines 207-214: the sid after the [id_token_hint] has been taken into
    account. A string is true when it is not empty. *)
Definition effective_sid (request : EndSessionRequest) (_sid : string)
  : result string :=
  match id_token_hint request with
  | Some _ =>
      _ith ← getitem "__verified_id_token_hint" (verified_id_token_hint request);
      sub ← getitem "sub" (it_sub _ith);
      _ith_sid ← first_item (get_sids_by_sub (sso_db _cntx) sub);
      if bool_decide (_sid ≠ "") then
        if bool_decide (_ith_sid ≠ _sid) then Raise (ValueError "Wrong ID Token hint")
        else Ok _sid
      else Ok _ith_sid
  | None => Ok _sid
  end.

(** Lines 228-236: the redirect URI of the confirmation token. *)
Definition resolve_redirect_uri (_cinfo : ClientInfo) (request : EndSessionRequest)
  : result redirect_target :=
  match post_logout_redirect_uri request with
  | None =>
      uris ← getitem "post_logout_redirect_uris" (post_logout_redirect_uris _cinfo);
      entry ← first_item uris;
      Ok (RegisteredEntry entry)
  | Some uri =>
      let _url_q := splitquery uri in
      uris ← getitem "post_logout_redirect_uris" (post_logout_redirect_uris _cinfo);
      if bool_decide (_url_q ∈ uris) then Ok (RequestedUri uri)
      else Raise (ValueError "Unregistered post_logout_redirect_uri")
  end.

(** Lines 191-214: the sid the request is processed for. *)
Definition request_sid (request : EndSessionRequest) (cookie : option string)
  : result string :=
  _sid ← cookie_sid cookie;
  effective_sid request _sid.

(** Lines 188-239: the payload of the confirmation token. *)
Definition confirmation_payload (request : EndSessionRequest) (cookie : option string)
  : result payload :=
  _sid ← request_sid request cookie;
  session ← match sdb _cntx !! _sid with
            | Some session => Ok session
            | None => Raise (ValueError "Can't find any corresponding session")
            end;
  let client_id := authn_req_client_id session in
  _cinfo ← getitem client_id (cdb _cntx !! client_id);
  _uri ← resolve_redirect_uri _cinfo request;
  Ok (LogoutConfirmation _sid client_id _uri).

(** The returned dict [{'sjwt': sjwt}], as its one value. *)
Definition process_request (request : EndSessionRequest) (cookie : option string)
  : result string :=
  payload ← confirmation_payload request cookie;
  sign_alg ← getitem "signing_alg" (signing_alg self);
  let _jws := {| jwt_iss := issuer _cntx; jwt_lifetime := 86400;
                 jwt_sign_alg := sign_alg; with_jti := false |} in
  Ok (pack _cntx _jws payload (issuer _cntx)).

(** What [kill_session] returns. *)
Record KillResult : Type := {
  logout_iframes : option (list string);
  response_args : string
}.

(** [kill_session] revokes the session in the store, which is returned
    with the result. *)
Definition kill_session (sid : string) (request : EndSessionRequest)
  (fc_iframes : option (list string)) : gmap string SessionInfo * KillResult :=
  let _sdb := revoke_session (sdb _cntx) sid in
  let _ruri :=
    match post_logout_redirect_uri request with
    | Some _ruri =>
        match state request with
        | Some st => _ruri +:+ "?" +:+ urlencode [("state", st)]
        | None => _ruri
        end
    | None =>
        match post_logout_page _cntx with
        | Some page => page
        | None => issuer _cntx
        end
    end in
  (_sdb, {| logout_iframes := fc_iframes; response_args := _ruri |}).

End ProcessRequest.

(** ** [introspection.py] *)

Module Introspection.

(** A claim of an unpacked token, as JSON decoding gives it: a float is
    a finite one (a rational), an infinity or NaN; arrays and objects are
    not looked into. *)
Inductive value : Type :=
| JNull
| JBool (b : bool)
| JInt (n : Z)
| JFloat (q : QArith_base.Q)
| JInfinity (negative : bool)
| JNaN
| JStr (s : string)
| JArray
| JObject.

(** [v < now] for the integer [now]: numbers and truth values compare with
    it, anything else raises [TypeError]. *)
Definition earlier (v : value) (now : Z) : result bool :=
  match v with
  | JInt n => Ok (n <? now)%Z
  | JBool b => Ok (Z.b2z b <? now)%Z
  | JFloat q => Ok (negb (QArith_base.Qle_bool (QArith_base.inject_Z now) q))
  | JInfinity negative => Ok negative
  | JNaN => Ok false
  | JNull | JStr _ | JArray | JObject => Raise TypeError
  end.

(** The endpoint: cryptojwt's [JWT(key_jar).unpack], which raises when the
    token does not verify and otherwise returns the token's claims; the
    clock [utc_time_sans_frac()]; [kwargs['release']]; and oidcmsg's
    [TokenIntrospectionResponse], by its construction from a dict of
    claims, [response_cls], and its [weed].

    Modelled from the spec: the user-info collaborator
    ([oidcendpoint.user_info.UserInfo.search], not part of these sources)
    looks a subject up and either finds the user or fails; its failure is
    the [KeyError] that [process_request] catches, here [None]. *)
Record Endpoint : Type := {
  unpack : string -> result (gmap string value);
  utc_time_sans_frac : Z;
  release : option (list string);
  userinfo_search : value -> option value;
  response_cls : gmap string value -> gmap string value;
  weed : gmap string value -> gmap string value
}.

(** The two shapes of the returned dict: [{"response": {"active": False}}]
    and [{"response_args": _resp}]. *)
Inductive response : Type :=
| Inactive
| Active (_resp : gmap string value).

(** Lines 56-63: the claims after the username has been added, when it is
    to be released; [None] stands for the early return. *)
Definition with_username (self : Endpoint) (_jwt_info : gmap string value)
  : option (gmap string value) :=
  let requested :=
    match release self with
    | Some claims => bool_decide ("username" ∈ claims)
    | None => false
    end in
  if requested then
    match (sub ← getitem "sub" (_jwt_info !! "sub");
           getitem "No matching user" (userinfo_search self sub)) with
    | Raise _ => None
    | Ok uname => Some (<["username" := uname]> _jwt_info)
    end
  else Some _jwt_info.

(** The request is the [token] field of the [TokenIntrospectionRequest]. *)
Definition process_request (self : Endpoint) (token : option string)
  : result response :=
  match (tok ← getitem "token" token; unpack self tok) with
  | Raise _ => Ok Inactive
  | Ok _jwt_info =>
      rbind
        match _jwt_info !! "exp" with
        | Some exp => earlier exp (utc_time_sans_frac self)
        | None => Ok false
        end
        (fun expired : bool =>
           if expired then Ok Inactive
           else
             match with_username self _jwt_info with
             | None => Ok Inactive
             | Some _jwt_info =>
                 let _resp := weed self (response_cls self _jwt_info) in
                 Ok (Active (<["active" := JBool true]> _resp))
             end)
  end.

End Introspection.

(** ** Vocabulary of the properties *)

(** The request carries an [id_token_hint] whose subject the single-sign-on
    index resolves to [sid], its first session. *)
Definition hint_resolves_to (self : Session) (request : EndSessionRequest)
  (sid : string) : Prop :=
  ∃ hint ith sub rest,
    id_token_hint request = Some hint ∧
    verified_id_token_hint request = Some ith ∧
    it_sub ith = Some sub ∧
    get_sids_by_sub (sso_db (endpoint_context self)) sub = sid :: rest.

(** There is no session cookie: the dealer returns [None] or raises
    [KeyError]. *)
Definition no_cookie (self : Session) (cookie : option string) : Prop :=
  let dealer := cookie_dealer (endpoint_context self) in
  get_cookie_value dealer cookie (name dealer) = Ok None ∨
  ∃ key, get_cookie_value dealer cookie (name dealer) = Raise (KeyError key).

(** The endpoint [self] with the relying parties answering the HTTP client
    as [answer] says. *)
Definition answering (answer : string -> string -> bool -> Z) (self : Session)
  : Session :=
  let c := endpoint_context self in
  {| endpoint_context :=
       {| issuer := issuer c; cdb := cdb c; sdb := sdb c; sso_db := sso_db c;
          cookie_dealer := cookie_dealer c;
          id_token_signing_alg_values_supported :=
            id_token_signing_alg_values_supported c;
          post_logout_page := post_logout_page c;
          verify_ssl := verify_ssl c;
          pack := pack c;
          httpc_post := answer;
          cookie_loads := cookie_loads c |};
     signing_alg := signing_alg self |}.

(** [d.get(k)] on a dict in insertion order. *)
Fixpoint dict_get {V : Type} (k : string) (d : list (string * V)) : option V :=
  match d with
  | [] => None
  | (k', v) :: d' => if String.eqb k k' then Some v else dict_get k d'
  end.

(** The sessions among [sids] that belong to [client_id], in order. *)
Definition sessions_of_client (self : Session) (client_id : string)
  (sids : list string) : list string :=
  filter (fun usid =>
            authn_req_client_id <$> sdb (endpoint_context self) !! usid
            = Some client_id) sids.

(** The HTTP request that delivers one entry of [bc_logouts]. *)
Definition post_of (item : string * (string * string)) : string * string :=
  (fst (snd item), "logout_token=" +:+ snd (snd item)).

(** [notified self targets bc_logouts fc_iframes]: every target
    [(client_id, sid)] is dealt with once, on the back channel when the
    client registered a [backchannel_logout_uri], else on the front channel
    when it registered a [frontchannel_logout_uri], else not at all, and
    with its own [sid]. *)
Inductive notified (self : Session)
  : list (string * string) -> list (string * (string * string)) -> list string
    -> Prop :=
| notified_nil : notified self [] [] []
| notified_back cid csid cinfo spec targets bc fc :
    cdb (endpoint_context self) !! cid = Some cinfo ->
    is_Some (backchannel_logout_uri cinfo) ->
    do_back_channel_logout self cinfo
      (get_sub_by_sid (sso_db (endpoint_context self)) csid) csid = Ok spec ->
    notified self targets bc fc ->
    notified self ((cid, csid) :: targets) ((cid, spec) :: bc) fc
| notified_front cid csid cinfo iframe targets bc fc :
    cdb (endpoint_context self) !! cid = Some cinfo ->
    backchannel_logout_uri cinfo = None ->
    is_Some (frontchannel_logout_uri cinfo) ->
    do_front_channel_logout_iframe cinfo (issuer (endpoint_context self)) csid
    = Ok iframe ->
    notified self targets bc fc ->
    notified self ((cid, csid) :: targets) bc (iframe :: fc)
| notified_none cid csid cinfo targets bc fc :
    cdb (endpoint_context self) !! cid = Some cinfo ->
    backchannel_logout_uri cinfo = None ->
    frontchannel_logout_uri cinfo = None ->
    notified self targets bc fc ->
    notified self ((cid, csid) :: targets) bc fc.

(** ** A provider with four relying parties

    The scenario of the specification: [alice] is signed in at [rp1]
    (session [s1], front channel with session parameters), at [rp2]
    (session [s2], both channels registered), at [rp3] (session [s3],
    front channel without session parameters) and a second time at [rp1]
    (session [s4]); [bob] is signed in at [rp4] (session [s5], no logout
    channel). Every back-channel endpoint answers 500. *)

Module Scenario.

Definition rp1 : ClientInfo := {|
  ci_client_id := Some "rp1";
  backchannel_logout_uri := None;
  frontchannel_logout_uri := Some "https://rp1/logout";
  frontchannel_logout_session_required := Some true;
  post_logout_redirect_uris := Some [("https://rp1/cb", None)];
  id_token_signed_response_alg := None |}.

Definition rp2 : ClientInfo := {|
  ci_client_id := Some "rp2";
  backchannel_logout_uri := Some "https://rp2/bc_logout";
  frontchannel_logout_uri := Some "https://rp2/logout";
  frontchannel_logout_session_required := Some true;
  post_logout_redirect_uris := Some [("https://rp2/cb", None)];
  id_token_signed_response_alg := Some "ES256" |}.

Definition rp3 : ClientInfo := {|
  ci_client_id := Some "rp3";
  backchannel_logout_uri := None;
  frontchannel_logout_uri := Some "https://rp3/logout";
  frontchannel_logout_session_required := None;
  post_logout_redirect_uris := Some [("https://rp3/cb", None)];
  id_token_signed_response_alg := None |}.

Definition rp4 : ClientInfo := {|
  ci_client_id := Some "rp4";
  backchannel_logout_uri := None;
  frontchannel_logout_uri := None;
  frontchannel_logout_session_required := None;
  post_logout_redirect_uris := Some [("https://rp4/cb", None)];
  id_token_signed_response_alg := None |}.

Definition live (client_id : string) : SessionInfo :=
  {| authn_req_client_id := client_id; revoked := false |}.

Definition sessions (with_second_rp1_login : bool) : gmap string SessionInfo :=
  let base : gmap string SessionInfo :=
    <["s1" := live "rp1"]> (<["s2" := live "rp2"]> (<["s3" := live "rp3"]>
      (<["s5" := live "rp4"]> ∅))) in
  if with_second_rp1_login then <["s4" := live "rp1"]> base else base.

Definition alice_sids (with_second_rp1_login : bool) : list string :=
  if with_second_rp1_login then ["s1"; "s2"; "s3"; "s4"] else ["s1"; "s2"; "s3"].

Definition sso (with_second_rp1_login : bool) : SSODb := {|
  get_uid_by_sid := fun sid => if String.eqb sid "s5" then "bob" else "alice";
  get_sids_by_uid := fun uid =>
    if String.eqb uid "alice" then alice_sids with_second_rp1_login else ["s5"];
  get_sub_by_sid := fun sid => if String.eqb sid "s5" then "bob" else "alice";
  get_sids_by_sub := fun sub =>
    if String.eqb sub "alice" then alice_sids with_second_rp1_login
    else if String.eqb sub "bob" then ["s5"] else [] |}.

(** A dealer whose cookie value is the sid itself. *)
Definition dealer : CookieDealer := {|
  name := "oidc_op";
  get_cookie_value := fun cookie cookie_name =>
    match cookie with
    | Some value => Ok (Some value)
    | None => Raise (KeyError cookie_name)
    end |}.

(** A token service that writes its arguments out unsigned. *)
Definition show_payload (p : payload) : string :=
  match p with
  | LogoutConfirmation sid client_id (RequestedUri uri) =>
      "confirm," +:+ sid +:+ "," +:+ client_id +:+ "," +:+ uri
  | LogoutConfirmation sid client_id (RegisteredEntry (path, _)) =>
      "confirm," +:+ sid +:+ "," +:+ client_id +:+ "," +:+ path
  | LogoutToken sub sid => "logout," +:+ sub +:+ "," +:+ sid
  end.

Definition show_jwt (jws : JWT) (p : payload) (recv : string) : string :=
  jwt_sign_alg jws +:+ "." +:+ show_payload p +:+ "." +:+ recv.

Definition context (with_second_rp1_login : bool) : EndpointContext := {|
  issuer := "https://op.example.com";
  cdb := <["rp1" := rp1]> (<["rp2" := rp2]> (<["rp3" := rp3]> (<["rp4" := rp4]> ∅)));
  sdb := sessions with_second_rp1_login;
  sso_db := sso with_second_rp1_login;
  cookie_dealer := dealer;
  id_token_signing_alg_values_supported := Some ["RS256"];
  post_logout_page := None;
  verify_ssl := true;
  pack := show_jwt;
  httpc_post := fun _ _ _ => 500%Z;
  cookie_loads := fun value => Ok {["sid" := value]} |}.

Definition endpoint (with_second_rp1_login : bool) : Session := {|
  endpoint_context := context with_second_rp1_login;
  signing_alg := Some "RS256" |}.

Definition no_hint (uri : option string) : EndSessionRequest := {|
  id_token_hint := None;
  verified_id_token_hint := None;
  post_logout_redirect_uri := uri;
  state := None |}.

Definition hint_of (sub : string) : EndSessionRequest := {|
  id_token_hint := Some "eyJ.hint";
  verified_id_token_hint := Some {| it_sub := Some sub; it_alg := "RS256" |};
  post_logout_redirect_uri := None;
  state := None |}.



End Scenario.

(** ** The rest of [session.py] *)

(** The dict [do_response] returns. *)
Record HttpResponse : Type := {
  response : string;
  http_headers : list (string * string)
}.

(** What [do_response] takes from the package outside these sources: the
    constants [URL_ENCODED] and [OAUTH2_NOCACHE_HEADERS] and the base class's
    [Endpoint.do_response], which handles an error. *)
Record EndpointBase : Type := {
  URL_ENCODED : string;
  OAUTH2_NOCACHE_HEADERS : list (string * string);
  Endpoint_do_response :
    option (list (string * string)) -> option EndSessionRequest -> string ->
    list (string * string) -> result HttpResponse
}.

(** [logout_uri] is [self.kwargs['logout_uri']], [kwargs] the keyword
    arguments in the order given. *)
Definition do_response (base : EndpointBase) (logout_uri : option string)
  (response_args : option (list (string * string)))
  (request : option EndSessionRequest) (error : string)
  (kwargs : list (string * string)) : result HttpResponse :=
  if bool_decide (error ≠ "") then
    Endpoint_do_response base response_args request error kwargs
  else
    let http_headers :=
      [("Content-type", URL_ENCODED base)] ++ OAUTH2_NOCACHE_HEADERS base in
    logout_uri ← getitem "logout_uri" logout_uri;
    let _resp := logout_uri +:+ "?" +:+ urlencode kwargs in
    Ok {| response := _resp; http_headers := http_headers |}.

Section SignedJWT.

(** cryptojwt: a parsed JWS, key sets and verified claims; [factory], which
    returns [None] for what is not a JWS; [alg2keytype]; the key jar's
    [get_signing_key]; and [verify_compact], which raises when the
    signature does not verify. *)
Variables JWS keys claims : Type.
Variable factory : string -> option JWS.
Variable alg2keytype : string -> string.
Variable get_signing_key : string -> keys.
Variable verify_compact : JWS -> keys -> string -> result claims.

Definition unpack_signed_jwt (self : Session) (sjwt : string) : result claims :=
  match factory sjwt with
  | Some _jwt =>
      alg ← getitem "signing_alg" (signing_alg self);
      let sign_keys := get_signing_key (alg2keytype alg) in
      verify_compact _jwt sign_keys alg
  | None => Raise (ValueError "Not a signed JWT")
  end.

End SignedJWT.

(** The keys of the request [parse_request] is called with. *)
Record RequestDict : Type := {
  d_id_token_hint : option string;
  d_post_logout_redirect_uri : option string;
  d_state : option string;
  d_client_id : option string;
  d_access_token : option string
}.

(** A request message: the [EndSessionRequest] fields and the two keys
    [parse_request] adds for an authenticated client. *)
Record RequestMessage : Type := {
  message : EndSessionRequest;
  client_id : option string;
  access_token : option string
}.

(** A request object: a dict or a message. [parse_request] is called with
    one, or with [None]. *)
Inductive request_obj : Type :=
| RequestIsDict (d : RequestDict)
| RequestIsMessage (m : RequestMessage).

(** [not request]: [None], or a dict or message without keys. *)
Definition request_is_empty (request : option request_obj) : bool :=
  match request with
  | None => true
  | Some (RequestIsDict d) =>
      bool_decide (d_id_token_hint d = None ∧ d_post_logout_redirect_uri d = None
                   ∧ d_state d = None ∧ d_client_id d = None
                   ∧ d_access_token d = None)
  | Some (RequestIsMessage m) =>
      bool_decide (id_token_hint (message m) = None
                   ∧ verified_id_token_hint (message m) = None
                   ∧ post_logout_redirect_uri (message m) = None
                   ∧ state (message m) = None
                   ∧ client_id m = None ∧ access_token m = None)
  end.

Definition empty_dict : RequestDict :=
  {| d_id_token_hint := None; d_post_logout_redirect_uri := None;
     d_state := None; d_client_id := None; d_access_token := None |}.

(** What [Endpoint.client_authentication] does: it raises
    [UnknownOrNoAuthnMethod] or something else, or returns an error
    [ResponseMessage] or the dict [auth_info]. *)
Inductive authn_result : Type :=
| UnknownOrNoAuthnMethod
| AuthnRaises (e : exn)
| AuthnResponseMessage (error : string)
| AuthnInfo (auth_client_id auth_token : option string).

(** The collaborators of [parse_request] outside these sources:
    [client_authentication] of the base class, and the construction of
    the [EndSessionRequest] with its [verify], which raises or returns a
    truth value and leaves the verified [id_token_hint] in the message. *)
Record RequestChecks : Type := {
  client_authentication : request_obj -> option string -> authn_result;
  verify : RequestDict -> result (bool * option IdToken)
}.

(** [parse_request] returns a [ResponseMessage] or the request. *)
Inductive parsed : Type :=
| ParsedResponseMessage (error : string)
| ParsedRequest (request : RequestMessage).

(** [request['client_id'] = ..; request['access_token'] = ..] *)
Definition set_client (request : request_obj) (cid tok : string) : request_obj :=
  match request with
  | RequestIsDict d =>
      RequestIsDict {| d_id_token_hint := d_id_token_hint d;
                       d_post_logout_redirect_uri := d_post_logout_redirect_uri d;
                       d_state := d_state d;
                       d_client_id := Some cid; d_access_token := Some tok |}
  | RequestIsMessage m =>
      RequestIsMessage {| message := message m; client_id := Some cid;
                          access_token := Some tok |}
  end.

(** Lines 294-310 of [parse_request], for the request after client
    authentication. *)
Definition verify_request (self : Session) (checks : RequestChecks)
  (request : request_obj) : result parsed :=
  match request with
  | RequestIsDict d =>
      '(verified, _ith) ← verify checks d;
      if negb verified then Raise (InvalidRequest "Didn't verify")
      else
        let request := {|
          message := {| id_token_hint := d_id_token_hint d;
                        verified_id_token_hint := _ith;
                        post_logout_redirect_uri := d_post_logout_redirect_uri d;
                        state := d_state d |};
          client_id := d_client_id d;
          access_token := d_access_token d |} in
        match _ith with
        | None => Ok (ParsedRequest request)
        | Some _ith =>
            supported ← getitem "id_token_signing_alg_values_supported"
                          (id_token_signing_alg_values_supported
                             (endpoint_context self));
            if bool_decide (it_alg _ith ∉ supported) then
              Raise (JWSException "Unsupported signing algorithm")
            else Ok (ParsedRequest request)
        end
  | RequestIsMessage m => Ok (ParsedRequest m)
  end.

Definition parse_request (self : Session) (checks : RequestChecks)
  (request : option request_obj) (auth : option string) : result parsed :=
  let request :=
    match request with
    | Some r => if request_is_empty request then RequestIsDict empty_dict else r
    | None => RequestIsDict empty_dict
    end in
  match client_authentication checks request auth with
  | UnknownOrNoAuthnMethod => verify_request self checks request
  | AuthnRaises e => Raise e
  | AuthnResponseMessage error => Ok (ParsedResponseMessage error)
  | AuthnInfo auth_client_id auth_token =>
      cid ← getitem "client_id" auth_client_id;
      tok ← getitem "token" auth_token;
      verify_request self checks (set_client request cid tok)
  end.

(** ** Vocabulary of the further properties *)

(** Whether the byte [c] occurs in [s]. *)
Fixpoint occurs (c : ascii) (s : string) : bool :=
  match s with
  | "" => false
  | String c' s' => Ascii.eqb c c' || occurs c s'
  end.

(** The bytes [quote_plus] writes. *)
Definition quoted_byte (c : ascii) : bool :=
  always_safe c || Ascii.eqb c "+" || Ascii.eqb c "%".

(** A URI as [splitquery] split it, put together again. *)
Definition unsplit (parts : uri_parts) : string :=
  match parts with
  | (path, Some query) => path +:+ "?" +:+ query
  | (path, None) => path
  end.

(** ** Further cases

    Variations of the provider of [Scenario] and instances of the
    collaborators of [unpack_signed_jwt] and [parse_request]. *)

Module Cases.

(** The provider of [Scenario] with other parts put in. *)
Definition provider (dealer : CookieDealer)
  (loads : string -> result (gmap string string))
  (clients : gmap string ClientInfo) (sessions : gmap string SessionInfo)
  (index : SSODb) (algs : option (list string)) (page : option string)
  (answer : string -> string -> bool -> Z) (alg : option string) : Session := {|
  endpoint_context := {|
    issuer := "https://op.example.com";
    cdb := clients;
    sdb := sessions;
    sso_db := index;
    cookie_dealer := dealer;
    id_token_signing_alg_values_supported := algs;
    post_logout_page := page;
    verify_ssl := true;
    pack := Scenario.show_jwt;
    httpc_post := answer;
    cookie_loads := loads |};
  signing_alg := alg |}.

Definition request_with_state (uri : option string) (st : option string)
  : EndSessionRequest := {|
  id_token_hint := None;
  verified_id_token_hint := None;
  post_logout_redirect_uri := uri;
  state := st |}.

(** A dealer that cannot read the cookie, and one whose cookie has no
    sid. *)
Definition broken_dealer : CookieDealer := {|
  name := "oidc_op";
  get_cookie_value := fun _ _ => Raise IndexError |}.

Definition loads_without_sid (value : string) : result (gmap string string) :=
  Ok {["state" := value]}.

(** [carol] has a subject and no session; [dave]'s one session is at a
    client that is not registered. *)
Definition index : SSODb := {|
  get_uid_by_sid := fun sid =>
    if String.eqb sid "s9" then "dave" else get_uid_by_sid (Scenario.sso false) sid;
  get_sids_by_uid := fun uid =>
    if String.eqb uid "dave" then ["s9"]
    else if String.eqb uid "carol" then []
    else get_sids_by_uid (Scenario.sso false) uid;
  get_sub_by_sid := fun sid =>
    if String.eqb sid "s9" then "dave" else get_sub_by_sid (Scenario.sso false) sid;
  get_sids_by_sub := fun sub =>
    if String.eqb sub "dave" then ["s9"]
    else get_sids_by_sub (Scenario.sso false) sub |}.

Definition sessions : gmap string SessionInfo :=
  <["s9" := Scenario.live "rp9"]> (Scenario.sessions false).

(** [rp5] registered a back channel and nothing to sign with, [rp6] a
    back channel and no [client_id], [rp7] no redirect URIs at all and
    [rp8] an empty list of them. *)
Definition rp5 : ClientInfo := {|
  ci_client_id := Some "rp5";
  backchannel_logout_uri := Some "https://rp5/bc_logout";
  frontchannel_logout_uri := None;
  frontchannel_logout_session_required := None;
  post_logout_redirect_uris := Some [("https://rp5/cb", Some "x=1")];
  id_token_signed_response_alg := None |}.

Definition rp6 : ClientInfo := {|
  ci_client_id := None;
  backchannel_logout_uri := Some "https://rp6/bc_logout";
  frontchannel_logout_uri := None;
  frontchannel_logout_session_required := None;
  post_logout_redirect_uris := None;
  id_token_signed_response_alg := Some "RS256" |}.

Definition rp7 : ClientInfo := {|
  ci_client_id := Some "rp7";
  backchannel_logout_uri := None;
  frontchannel_logout_uri := None;
  frontchannel_logout_session_required := None;
  post_logout_redirect_uris := None;
  id_token_signed_response_alg := None |}.

Definition rp8 : ClientInfo := {|
  ci_client_id := Some "rp8";
  backchannel_logout_uri := None;
  frontchannel_logout_uri := None;
  frontchannel_logout_session_required := None;
  post_logout_redirect_uris := Some [];
  id_token_signed_response_alg := None |}.

(** The provider of [Scenario] with [dave] and his session added. *)
Definition endpoint : Session :=
  provider Scenario.dealer (fun value => Ok {["sid" := value]})
    (cdb (Scenario.context false)) sessions index (Some ["RS256"]) None
    (fun _ _ _ => 302%Z) (Some "RS256").

(** A JWS library whose tokens are those [Scenario.show_jwt] writes: a
    token parses when it starts with its algorithm, [RS256] or [ES256],
    and verifies when that is the algorithm asked for. *)
Definition factory (sjwt : string) : option string :=
  if String.prefix "RS256." sjwt then Some sjwt
  else if String.prefix "ES256." sjwt then Some sjwt
  else None.

Definition alg2keytype (alg : string) : string :=
  if String.prefix "RS" alg then "RSA" else "EC".

Definition verify_compact (jws keys alg : string) : result string :=
  if String.prefix alg jws then Ok jws
  else Raise (JWSException "bad signature").

(** Client authentication by a bearer string, and a request check that
    takes the hint itself for the algorithm of its header. *)
Definition checks : RequestChecks := {|
  client_authentication := fun _ auth =>
    match auth with
    | None => UnknownOrNoAuthnMethod
    | Some a =>
        if String.eqb a "Bearer rp1" then AuthnInfo (Some "rp1") (Some "tok1")
        else AuthnResponseMessage "invalid_client"
    end;
  verify := fun d =>
    match d_id_token_hint d with
    | Some hint =>
        if String.eqb hint "unsigned" then Ok (false, None)
        else Ok (true, Some {| it_sub := Some "alice"; it_alg := hint |})
    | None => Ok (true, None)
    end |}.

Definition hinted (hint : string) : RequestDict := {|
  d_id_token_hint := Some hint;
  d_post_logout_redirect_uri := None;
  d_state := None;
  d_client_id := None;
  d_access_token := None |}.

End Cases.

(** ** Properties *)

(** *** Strings and the error monad *)

Lemma append_cons (x : ascii) (a b : string) :
  String x a +:+ b = String x (a +:+ b).
Proof. reflexivity. Qed.

Lemma append_assoc (a b c : string) : (a +:+ b) +:+ c = a +:+ b +:+ c.
Proof.
  induction a as [|x a IH]; [reflexivity|].
  rewrite !append_cons. now rewrite IH.
Qed.

(** One step of a sequence in the error monad. *)
Ltac result_step := cbn [mbind result_bind rbind getitem first_item].

Tactic Notation "result_step" "in" hyp(H) :=
  cbn [mbind result_bind rbind getitem first_item] in H.

Lemma lift_bind {A B : Type} (r : result A) (k : A -> io B) (a : A) :
  r = Ok a -> (x ← lift r; k x) = k a.
Proof.
  intros ->. unfold mbind, io_mbind, io_bind, lift. simpl.
  now destruct (k a).
Qed.

Lemma lift_bind_raise {A B : Type} (r : result A) (k : A -> io B) (e : exn) :
  r = Raise e -> (x ← lift r; k x) = IO (Raise e) [].
Proof. intros ->. reflexivity. Qed.

(** *** The front-channel iframe *)

Lemma urlencode_iss_sid (iss sid : string) :
  urlencode [("iss", iss); ("sid", sid)]
  = "iss=" +:+ quote_plus iss +:+ "&sid=" +:+ quote_plus sid.
Proof.
  unfold urlencode. cbn [map join fst snd]. now rewrite append_assoc.
Qed.

(** C8, as amended. For a registration with a [frontchannel_logout_uri]:
    when [frontchannel_logout_session_required] is true the iframe's [src]
    is the registered URI followed by [?iss=..&sid=..], the issuer and the
    party's own session id being percent-encoded as [urlencode] does;
    otherwise it is the bare URI. In the single-client scenario
    ([rp1] registered with [https://rp1/logout] and sessions required,
    session [s1]) [do_verified_logout] returns the one iframe
    [<iframe src="https://rp1/logout?iss=ENC&sid=s1">] where [ENC] is the
    percent-encoded issuer. *)
Theorem front_channel_iframe_src (self : Session) (cinfo : ClientInfo)
  (iss sid uri : string) :
  frontchannel_logout_uri cinfo = Some uri ->
  do_front_channel_logout_iframe cinfo iss sid
  = Ok (match frontchannel_logout_session_required cinfo with
        | Some true =>
            "<iframe src=" +:+ dquote +:+ uri +:+ "?iss=" +:+ quote_plus iss
            +:+ "&sid=" +:+ quote_plus sid +:+ dquote +:+ ">"
        | _ => "<iframe src=" +:+ dquote +:+ uri +:+ dquote +:+ ">"
        end)
  ∧ (cdb (endpoint_context self) !! "rp1" = Some cinfo ->
     backchannel_logout_uri cinfo = None ->
     uri = "https://rp1/logout" ->
     frontchannel_logout_session_required cinfo = Some true ->
     do_verified_logout self "s1" "rp1" false
     = IO (Ok (Some ["<iframe src=" +:+ dquote +:+ "https://rp1/logout?iss="
                     +:+ quote_plus (issuer (endpoint_context self))
                     +:+ "&sid=s1" +:+ dquote +:+ ">"])) []).
Proof.
  intros Huri.
  assert (Hframe : forall iss' sid',
    do_front_channel_logout_iframe cinfo iss' sid'
    = Ok (match frontchannel_logout_session_required cinfo with
          | Some true =>
              "<iframe src=" +:+ dquote +:+ uri +:+ "?iss=" +:+ quote_plus iss'
              +:+ "&sid=" +:+ quote_plus sid' +:+ dquote +:+ ">"
          | _ => "<iframe src=" +:+ dquote +:+ uri +:+ dquote +:+ ">"
          end)).
  { intros iss' sid'. unfold do_front_channel_logout_iframe.
    rewrite Huri. simpl.
    destruct (frontchannel_logout_session_required cinfo) as [[|]|];
      try reflexivity.
    rewrite urlencode_iss_sid, !append_assoc. reflexivity. }
  split; [apply Hframe|].
  intros Hcdb Hbc -> Hreq.
  unfold do_verified_logout, logout_from_client.
  rewrite (lift_bind _ _ cinfo) by (now rewrite Hcdb).
  rewrite Hbc, Huri. simpl.
  rewrite Hframe, Hreq. reflexivity.
Qed.

Lemma front_channel_iframe_src_witness :
  do_front_channel_logout_iframe Scenario.rp1 "https://op.example.com" "s1"
  = Ok ("<iframe src=" +:+ dquote
        +:+ "https://rp1/logout?iss=https%3A%2F%2Fop.example.com&sid=s1"
        +:+ dquote +:+ ">")
  ∧ do_verified_logout (Scenario.endpoint false) "s1" "rp1" false
    = IO (Ok (Some ["<iframe src=" +:+ dquote
                    +:+ "https://rp1/logout?iss=https%3A%2F%2Fop.example.com&sid=s1"
                    +:+ dquote +:+ ">"])) [].
Proof.
  destruct (front_channel_iframe_src (Scenario.endpoint false) Scenario.rp1
              "https://op.example.com" "s1" "https://rp1/logout" eq_refl)
    as [Hframe Hlogout].
  split; [exact Hframe|].
  apply Hlogout; reflexivity.
Defined.

(** The issuer [https://op.example.com] does not appear literally in the
    iframe of the single-client scenario. *)
Lemma front_channel_iframe_literal_issuer_counterexample :
  cdb (Scenario.context false) !! "rp1" = Some Scenario.rp1
  ∧ frontchannel_logout_uri Scenario.rp1 = Some "https://rp1/logout"
  ∧ frontchannel_logout_session_required Scenario.rp1 = Some true
  ∧ outcome (do_verified_logout (Scenario.endpoint false) "s1" "rp1" false)
    ≠ Ok (Some ["<iframe src=" +:+ dquote +:+ "https://rp1/logout?iss="
                +:+ issuer (Scenario.context false) +:+ "&sid=s1"
                +:+ dquote +:+ ">"]).
Proof.
  repeat split; try reflexivity.
  vm_compute. discriminate.
Qed.

(** *** Single-client logout *)

(** C9. For a registration with neither a [backchannel_logout_uri] nor a
    [frontchannel_logout_uri], [logout_from_client], and so
    [do_verified_logout] with [alla=False], returns [None], not a list. *)
Theorem logout_from_client_without_channel (self : Session)
  (sid client_id : string) (cinfo : ClientInfo) :
  cdb (endpoint_context self) !! client_id = Some cinfo ->
  backchannel_logout_uri cinfo = None ->
  frontchannel_logout_uri cinfo = None ->
  logout_from_client self sid client_id = IO (Ok None) []
  ∧ do_verified_logout self sid client_id false = IO (Ok None) [].
Proof.
  intros Hcdb Hbc Hfc.
  assert (H : logout_from_client self sid client_id = IO (Ok None) []).
  { unfold logout_from_client.
    rewrite (lift_bind _ _ cinfo) by (now rewrite Hcdb).
    rewrite Hbc, Hfc. reflexivity. }
  split; [exact H | exact H].
Qed.

Lemma logout_from_client_without_channel_witness :
  logout_from_client (Scenario.endpoint false) "s5" "rp4" = IO (Ok None) []
  ∧ do_verified_logout (Scenario.endpoint false) "s5" "rp4" false = IO (Ok None) [].
Proof.
  apply (logout_from_client_without_channel (Scenario.endpoint false)
           "s5" "rp4" Scenario.rp4); reflexivity.
Defined.

Lemma logout_from_client_posts (self : Session) (sid client_id : string) :
  trace (logout_from_client self sid client_id) = [].
Proof.
  unfold logout_from_client.
  destruct (cdb (endpoint_context self) !! client_id) as [cinfo|];
    [|reflexivity].
  rewrite (lift_bind _ _ cinfo) by reflexivity.
  destruct (bool_decide (is_Some (backchannel_logout_uri cinfo))).
  - destruct (do_back_channel_logout self cinfo _ sid) as [spec|e] eqn:Hbc.
    + now rewrite (lift_bind _ _ spec).
    + now rewrite (lift_bind_raise _ _ e).
  - destruct (bool_decide (is_Some (frontchannel_logout_uri cinfo)));
      [|reflexivity].
    destruct (do_front_channel_logout_iframe cinfo _ sid) as [iframe|e] eqn:Hfc.
    + now rewrite (lift_bind _ _ iframe).
    + now rewrite (lift_bind_raise _ _ e).
Qed.

(** C2, at the failing input. [rp2] registered both logout URIs;
    [logout_from_client] for its session builds the logout token, returns
    the empty iframe list and performs no HTTP POST, as it never does. *)
Theorem logout_from_client_never_posts :
  cdb (Scenario.context false) !! "rp2" = Some Scenario.rp2
  ∧ is_Some (backchannel_logout_uri Scenario.rp2)
  ∧ is_Some (frontchannel_logout_uri Scenario.rp2)
  ∧ logout_from_client (Scenario.endpoint false) "s2" "rp2" = IO (Ok (Some [])) []
  ∧ (forall self sid client_id,
       posts (trace (logout_from_client self sid client_id)) = []).
Proof.
  repeat split; try (eexists; reflexivity).
  intros self sid client_id. now rewrite logout_from_client_posts.
Qed.

(** *** Introspection *)




(** *** Request processing *)

Lemma no_cookie_sid (self : Session) (cookie : option string) :
  no_cookie self cookie -> cookie_sid self cookie = Ok "".
Proof.
  unfold no_cookie, cookie_sid. intros [H | [key H]]; now rewrite H.
Qed.

Lemma effective_sid_hint (self : Session) (request : EndSessionRequest)
  (_sid sidB : string) :
  hint_resolves_to self request sidB ->
  effective_sid self request _sid
  = if bool_decide (_sid ≠ "") then
      if bool_decide (sidB ≠ _sid) then Raise SessionMismatch else Ok _sid
    else Ok sidB.
Proof.
  intros (hint & ith & sub & rest & Hhint & Hith & Hsub & Hsids).
  unfold effective_sid. cbv zeta. rewrite Hhint, Hith.
  result_step. rewrite Hsub. result_step. rewrite Hsids. reflexivity.
Qed.

(** The sid of a confirmation token is [request_sid]. *)
Lemma process_request_sid (self : Session) (request : EndSessionRequest)
  (cookie : option string) (sjwt : string) :
  process_request self request cookie = Ok sjwt ->
  ∃ sid client_id uri alg,
    request_sid self request cookie = Ok sid
    ∧ sjwt = pack (endpoint_context self)
               {| jwt_iss := issuer (endpoint_context self); jwt_lifetime := 86400;
                  jwt_sign_alg := alg; with_jti := false |}
               (LogoutConfirmation sid client_id uri)
               (issuer (endpoint_context self)).
Proof.
  unfold process_request, confirmation_payload. cbv zeta.
  destruct (request_sid self request cookie) as [sid|e]; [|discriminate].
  result_step.
  destruct (sdb (endpoint_context self) !! sid) as [session|]; [|discriminate].
  result_step.
  destruct (getitem _ (cdb (endpoint_context self) !! _)) as [cinfo|e];
    [|discriminate].
  result_step.
  destruct (resolve_redirect_uri cinfo request) as [uri|e]; [|discriminate].
  result_step.
  destruct (signing_alg self) as [alg|]; [|discriminate].
  result_step. intros [= <-].
  now exists sid, (authn_req_client_id session), uri, alg.
Qed.

Lemma process_request_raise (self : Session) (request : EndSessionRequest)
  (cookie : option string) (e : exn) :
  request_sid self request cookie = Raise e ->
  process_request self request cookie = Raise e.
Proof.
  intros H. unfold process_request, confirmation_payload. now rewrite H.
Qed.

(** C1, as amended. When the session cookie resolves to a non-empty
    [sidA] and the [id_token_hint] resolves to a different [sidB],
    [process_request] fails with [SessionMismatch]. When there is a cookie
    and no hint the cookie's sid is the effective sid, and when there is a
    hint and no cookie the hint's sid is. *)
Theorem session_hint_consistency (self : Session) (request : EndSessionRequest)
  (cookie : option string) (sidA sidB : string) :
  (cookie_sid self cookie = Ok sidA -> sidA ≠ "" ->
   hint_resolves_to self request sidB -> sidA ≠ sidB ->
   process_request self request cookie = Raise SessionMismatch)
  ∧ (cookie_sid self cookie = Ok sidA -> id_token_hint request = None ->
     request_sid self request cookie = Ok sidA)
  ∧ (no_cookie self cookie -> hint_resolves_to self request sidB ->
     request_sid self request cookie = Ok sidB).
Proof.
  split; [|split].
  - intros Hcookie Hne Hhint Hdiff.
    apply process_request_raise. unfold request_sid.
    rewrite Hcookie. result_step.
    rewrite (effective_sid_hint _ _ _ _ Hhint).
    rewrite bool_decide_eq_true_2 by assumption.
    now rewrite bool_decide_eq_true_2 by congruence.
  - intros Hcookie Hhint. unfold request_sid.
    rewrite Hcookie. result_step.
    unfold effective_sid. now rewrite Hhint.
  - intros Hcookie Hhint. unfold request_sid.
    rewrite (no_cookie_sid _ _ Hcookie). result_step.
    now rewrite (effective_sid_hint _ _ _ _ Hhint).
Qed.

Lemma session_hint_consistency_witness :
  process_request (Scenario.endpoint false) (Scenario.hint_of "bob") (Some "s1")
  = Raise SessionMismatch
  ∧ request_sid (Scenario.endpoint false) (Scenario.no_hint None) (Some "s1")
    = Ok "s1"
  ∧ request_sid (Scenario.endpoint false) (Scenario.hint_of "bob") None
    = Ok "s5".
Proof.
  assert (Hhint : hint_resolves_to (Scenario.endpoint false)
                    (Scenario.hint_of "bob") "s5").
  { eexists _, _, "bob", []. repeat split. }
  split; [|split].
  - apply (session_hint_consistency (Scenario.endpoint false)
             (Scenario.hint_of "bob") (Some "s1") "s1" "s5");
      [reflexivity | discriminate | exact Hhint | discriminate].
  - apply (session_hint_consistency (Scenario.endpoint false)
             (Scenario.no_hint None) (Some "s1") "s1" "s5"); reflexivity.
  - apply (session_hint_consistency (Scenario.endpoint false)
             (Scenario.hint_of "bob") None "" "s5");
      [right; eexists; reflexivity | exact Hhint].
Defined.

(** A cookie whose sid is the empty string and a hint that resolves to
    [s5]: the two disagree, and the request is processed for [s5]. *)
Lemma session_hint_empty_cookie_sid_counterexample :
  cookie_sid (Scenario.endpoint false) (Some "") = Ok ""
  ∧ hint_resolves_to (Scenario.endpoint false) (Scenario.hint_of "bob") "s5"
  ∧ "" ≠ "s5"
  ∧ process_request (Scenario.endpoint false) (Scenario.hint_of "bob") (Some "")
    ≠ Raise SessionMismatch
  ∧ request_sid (Scenario.endpoint false) (Scenario.hint_of "bob") (Some "")
    = Ok "s5".
Proof.
  split; [reflexivity|]. split; [eexists _, _, "bob", []; repeat split|].
  split; [discriminate|]. split; [|reflexivity].
  vm_compute. discriminate.
Qed.

(** The payload once the session and its client are known. *)
Lemma confirmation_payload_resolved (self : Session) (request : EndSessionRequest)
  (cookie : option string) (sid : string) (session : SessionInfo)
  (cinfo : ClientInfo) :
  request_sid self request cookie = Ok sid ->
  sdb (endpoint_context self) !! sid = Some session ->
  cdb (endpoint_context self) !! authn_req_client_id session = Some cinfo ->
  confirmation_payload self request cookie
  = (_uri ← resolve_redirect_uri cinfo request;
     Ok (LogoutConfirmation sid (authn_req_client_id session) _uri)).
Proof.
  intros Hsid Hsession Hcinfo. unfold confirmation_payload. cbv zeta.
  rewrite Hsid. result_step. rewrite Hsession. result_step.
  rewrite Hcinfo. reflexivity.
Qed.

(** C6, as amended. With no session cookie and no [id_token_hint] the
    effective sid is the empty string, and [process_request] fails with
    [UnknownSession] when the session store holds no session under the
    empty sid. *)
Theorem anonymous_logout_unknown_session (self : Session)
  (request : EndSessionRequest) (cookie : option string) :
  no_cookie self cookie ->
  id_token_hint request = None ->
  request_sid self request cookie = Ok ""
  ∧ (sdb (endpoint_context self) !! "" = None ->
     process_request self request cookie = Raise UnknownSession).
Proof.
  intros Hcookie Hhint.
  assert (Hsid : request_sid self request cookie = Ok "").
  { unfold request_sid. rewrite (no_cookie_sid _ _ Hcookie). result_step.
    unfold effective_sid. now rewrite Hhint. }
  split; [exact Hsid|].
  intros Hnone. unfold process_request, confirmation_payload. cbv zeta.
  rewrite Hsid. result_step. now rewrite Hnone.
Qed.

Lemma anonymous_logout_unknown_session_witness :
  request_sid (Scenario.endpoint false) (Scenario.no_hint None) None = Ok ""
  ∧ process_request (Scenario.endpoint false) (Scenario.no_hint None) None
    = Raise UnknownSession.
Proof.
  destruct (anonymous_logout_unknown_session (Scenario.endpoint false)
              (Scenario.no_hint None) None) as [Hsid Hfail].
  - right. eexists. reflexivity.
  - reflexivity.
  - split; [exact Hsid|]. apply Hfail. reflexivity.
Defined.

(** A request with neither cookie nor hint, with or without a registered
    redirect URI: processing fails. *)
Lemma anonymous_logout_counterexample :
  no_cookie (Scenario.endpoint false) None
  ∧ id_token_hint (Scenario.no_hint (Some "https://rp1/cb")) = None
  ∧ ¬ (∃ sjwt, process_request (Scenario.endpoint false)
                 (Scenario.no_hint (Some "https://rp1/cb")) None = Ok sjwt)
  ∧ ¬ (∃ sjwt, process_request (Scenario.endpoint false)
                 (Scenario.no_hint None) None = Ok sjwt).
Proof.
  split; [right; eexists; reflexivity|]. split; [reflexivity|].
  split; intros [sjwt H]; vm_compute in H; discriminate.
Qed.

(** *** The post-logout redirect URI *)

(** C4, as amended. A request's [post_logout_redirect_uri] is compared,
    split into the pair of its part before the query and its query, with
    the client's registered entries: when the pair is not registered, and
    so whenever its part before the query is not registered, resolution
    fails with [UnregisteredRedirectURI]; when the pair is registered
    resolution returns the request's URI unchanged, query included. A
    request without [post_logout_redirect_uri] gets the client's first
    registered entry. *)
Theorem post_logout_redirect_resolution (cinfo : ClientInfo)
  (request : EndSessionRequest) (uris : list uri_parts) :
  post_logout_redirect_uris cinfo = Some uris ->
  (forall uri, post_logout_redirect_uri request = Some uri ->
     (splitquery uri ∉ uris ->
      resolve_redirect_uri cinfo request = Raise UnregisteredRedirectURI)
     ∧ (fst (splitquery uri) ∉ uris.*1 ->
        resolve_redirect_uri cinfo request = Raise UnregisteredRedirectURI)
     ∧ (splitquery uri ∈ uris ->
        resolve_redirect_uri cinfo request = Ok (RequestedUri uri)))
  ∧ (post_logout_redirect_uri request = None ->
     forall entry rest, uris = entry :: rest ->
       resolve_redirect_uri cinfo request = Ok (RegisteredEntry entry)).
Proof.
  intros Huris. split.
  - intros uri Huri.
    assert (Hnot : splitquery uri ∉ uris ->
              resolve_redirect_uri cinfo request = Raise UnregisteredRedirectURI).
    { intros Hnotin. unfold resolve_redirect_uri. rewrite Huri, Huris.
      result_step. now rewrite bool_decide_eq_false_2. }
    split; [exact Hnot|]. split.
    + intros Hbase. apply Hnot. intros Hin. apply Hbase.
      apply list_elem_of_fmap. now exists (splitquery uri).
    + intros Hin. unfold resolve_redirect_uri. rewrite Huri, Huris.
      result_step. now rewrite bool_decide_eq_true_2.
  - intros Hnone entry rest ->. unfold resolve_redirect_uri.
    now rewrite Hnone, Huris.
Qed.

Lemma post_logout_redirect_resolution_witness :
  resolve_redirect_uri Scenario.rp1 (Scenario.no_hint (Some "https://rp1/other"))
  = Raise UnregisteredRedirectURI
  ∧ resolve_redirect_uri Scenario.rp1 (Scenario.no_hint (Some "https://rp1/cb"))
    = Ok (RequestedUri "https://rp1/cb")
  ∧ resolve_redirect_uri Scenario.rp1 (Scenario.no_hint None)
    = Ok (RegisteredEntry ("https://rp1/cb", None)).
Proof.
  split; [|split].
  - destruct (post_logout_redirect_resolution Scenario.rp1
                (Scenario.no_hint (Some "https://rp1/other"))
                [("https://rp1/cb", None)] eq_refl) as [Hsome _].
    destruct (Hsome "https://rp1/other" eq_refl) as (Hnot & _ & _).
    apply Hnot. intros Hin. apply list_elem_of_In in Hin.
    destruct Hin as [Heq | []]. discriminate Heq.
  - destruct (post_logout_redirect_resolution Scenario.rp1
                (Scenario.no_hint (Some "https://rp1/cb"))
                [("https://rp1/cb", None)] eq_refl) as [Hsome _].
    destruct (Hsome "https://rp1/cb" eq_refl) as (_ & _ & Hin).
    apply Hin. apply list_elem_of_here.
  - destruct (post_logout_redirect_resolution Scenario.rp1
                (Scenario.no_hint None)
                [("https://rp1/cb", None)] eq_refl) as [_ Hnone].
    apply (Hnone eq_refl _ []). reflexivity.
Defined.

(** [https://rp1/cb] is registered for [rp1]; the same URI with a query
    string is refused. *)
Lemma post_logout_redirect_query_counterexample :
  post_logout_redirect_uris Scenario.rp1 = Some [("https://rp1/cb", None)]
  ∧ fst (splitquery "https://rp1/cb?x=1") ∈ [("https://rp1/cb", None : option string)].*1
  ∧ resolve_redirect_uri Scenario.rp1 (Scenario.no_hint (Some "https://rp1/cb?x=1"))
    = Raise UnregisteredRedirectURI
  ∧ process_request (Scenario.endpoint false)
      (Scenario.no_hint (Some "https://rp1/cb?x=1")) (Some "s1")
    = Raise UnregisteredRedirectURI.
Proof.
  split; [reflexivity|]. split; [apply list_elem_of_here|].
  split; reflexivity.
Qed.

(** *** Dicts in insertion order *)

Lemma dict_set_keys {V : Type} (k : string) (v : V) (d : list (string * V)) :
  (dict_set k v d).*1 = if bool_decide (k ∈ d.*1) then d.*1 else d.*1 ++ [k].
Proof.
  induction d as [|[k' v'] d IH]; [reflexivity|].
  cbn [dict_set fmap list_fmap fst].
  destruct (String.eqb_spec k k') as [->|Hne].
  - rewrite bool_decide_eq_true_2 by apply list_elem_of_here. reflexivity.
  - cbn [fmap list_fmap fst]. change (list_fmap _ _ fst ?l) with (l.*1).
    rewrite IH. destruct (bool_decide_reflect (k ∈ d.*1)) as [Hin|Hnin].
    + now rewrite bool_decide_eq_true_2 by (now apply list_elem_of_further).
    + rewrite bool_decide_eq_false_2; [reflexivity|].
      intros Hin. apply elem_of_cons in Hin as [?|?]; congruence.
Qed.

Lemma dict_set_fresh {V : Type} (k : string) (v : V) (d : list (string * V)) :
  k ∉ d.*1 -> dict_set k v d = d ++ [(k, v)].
Proof.
  induction d as [|[k' v'] d IH]; [reflexivity|].
  intros Hnin. cbn [dict_set].
  destruct (String.eqb_spec k k') as [->|Hne].
  - exfalso. apply Hnin. apply list_elem_of_here.
  - cbn [app]. f_equal. apply IH. intros Hin. apply Hnin.
    now apply list_elem_of_further.
Qed.

Lemma dict_set_NoDup {V : Type} (k : string) (v : V) (d : list (string * V)) :
  NoDup d.*1 -> NoDup (dict_set k v d).*1.
Proof.
  intros Hd. rewrite dict_set_keys.
  destruct (bool_decide_reflect (k ∈ d.*1)) as [Hin|Hnin]; [exact Hd|].
  apply NoDup_app. split; [exact Hd|]. split.
  - intros x Hx Hk. apply list_elem_of_singleton in Hk. congruence.
  - apply NoDup_singleton.
Qed.

Lemma dict_get_set {V : Type} (k k' : string) (v : V) (d : list (string * V)) :
  dict_get k' (dict_set k v d)
  = if String.eqb k' k then Some v else dict_get k' d.
Proof.
  induction d as [|[k0 v0] d IH]; [reflexivity|].
  cbn [dict_set dict_get].
  destruct (String.eqb_spec k k0) as [->|Hne]; cbn [dict_get].
  - now destruct (String.eqb k' k0).
  - rewrite IH. destruct (String.eqb_spec k' k0) as [->|Hne'];
      [|reflexivity].
    destruct (String.eqb_spec k0 k); congruence.
Qed.

(** *** Effects *)

Lemma io_bind_ok {A B : Type} (m : io A) (k : A -> io B) (a : A) :
  outcome m = Ok a ->
  outcome (x ← m; k x) = outcome (k a)
  ∧ trace (x ← m; k x) = trace m ++ trace (k a).
Proof.
  intros H. unfold mbind, io_mbind, io_bind. now rewrite H.
Qed.

Lemma posts_app (t1 t2 : list event) : posts (t1 ++ t2) = posts t1 ++ posts t2.
Proof. apply omap_app. Qed.

(** Delivering a logout token posts it once and does not raise, whatever
    status code the relying party answers with. *)
Lemma deliver_logout_token_run (self : Session)
  (item : string * (string * string)) :
  outcome (deliver_logout_token self item) = Ok tt
  ∧ posts (trace (deliver_logout_token self item)) = [post_of item].
Proof.
  destruct item as [_cid [_url sjwt]].
  unfold deliver_logout_token, post_of. cbv zeta.
  cbn [mbind io_mbind io_bind emit outcome trace fst snd].
  destruct (httpc_post _ _ _ _ <? 300)%Z;
    [|destruct (httpc_post _ _ _ _ >=? 400)%Z]; split; reflexivity.
Qed.

Lemma deliver_all_run (self : Session)
  (bc_logouts : list (string * (string * string))) :
  outcome (io_for_each (deliver_logout_token self) bc_logouts) = Ok tt
  ∧ posts (trace (io_for_each (deliver_logout_token self) bc_logouts))
    = post_of <$> bc_logouts.
Proof.
  induction bc_logouts as [|item items [IHo IHp]]; [split; reflexivity|].
  cbn [io_for_each].
  destruct (deliver_logout_token_run self item) as [Ho Hp].
  destruct (io_bind_ok (deliver_logout_token self item)
              (fun _ => io_for_each (deliver_logout_token self) items) tt Ho)
    as [Ho' Ht'].
  split.
  - now rewrite Ho'.
  - rewrite Ht', posts_app, Hp, IHp. reflexivity.
Qed.

(** Once the targets are classified, [logout_all_clients] posts every
    back-channel logout token and returns the iframes. *)
Lemma logout_all_clients_run (self : Session) (sid client_id : string)
  (cs : list (string * string)) (bc : list (string * (string * string)))
  (fc : list string) :
  client_sid self sid = Ok cs ->
  for_each (classify_client self) cs ([], []) = Ok (bc, fc) ->
  outcome (logout_all_clients self sid client_id) = Ok fc
  ∧ posts (trace (logout_all_clients self sid client_id)) = post_of <$> bc.
Proof.
  intros Hcs Hclassify. unfold logout_all_clients.
  rewrite (lift_bind _ _ cs Hcs).
  rewrite (lift_bind _ _ (bc, fc) Hclassify).
  destruct (deliver_all_run self bc) as [Ho Hp].
  destruct (io_bind_ok (io_for_each (deliver_logout_token self) bc)
              (fun _ => mret fc) tt Ho) as [Ho' Ht'].
  split.
  - rewrite Ho'. reflexivity.
  - rewrite Ht', posts_app, Hp. cbn [mret io_ret trace posts omap].
    apply app_nil_r.
Qed.

(** *** The targets of an all-clients logout *)

(** The loop that fills [_client_sid] keeps one entry per client and
    leaves each client with the last of its sessions. *)
Lemma collect_client_sid (self : Session) (sids : list string)
  (acc cs : list (string * string)) :
  for_each
    (fun _client_sid usid =>
       session ← getitem usid (sdb (endpoint_context self) !! usid);
       Ok (dict_set (authn_req_client_id session) usid _client_sid))
    sids acc = Ok cs ->
  NoDup acc.*1 ->
  NoDup cs.*1
  ∧ forall cid,
      dict_get cid cs
      = match last (sessions_of_client self cid sids) with
        | Some usid => Some usid
        | None => dict_get cid acc
        end.
Proof.
  revert acc. induction sids as [|usid sids IH]; intros acc Hrun Hacc.
  - injection Hrun as <-. split; [exact Hacc | reflexivity].
  - cbn [for_each] in Hrun.
    destruct (sdb (endpoint_context self) !! usid) as [session|] eqn:Hsession;
      [|discriminate Hrun].
    result_step in Hrun.
    destruct (IH _ Hrun (dict_set_NoDup _ _ _ Hacc)) as [Hnodup Hget].
    split; [exact Hnodup|].
    intros cid. rewrite Hget, dict_get_set.
    unfold sessions_of_client. rewrite filter_cons, Hsession.
    cbn [fmap option_fmap option_map].
    destruct (String.eqb_spec cid (authn_req_client_id session)) as [->|Hne].
    + rewrite decide_True by reflexivity. rewrite last_cons.
      now destruct (last _).
    + rewrite decide_False by congruence. reflexivity.
Qed.

Lemma classify_client_cases (self : Session)
  (bc0 : list (string * (string * string))) (fc0 : list string)
  (cid csid : string) (st : list (string * (string * string)) * list string) :
  classify_client self (bc0, fc0) (cid, csid) = Ok st ->
  ∃ cinfo,
    cdb (endpoint_context self) !! cid = Some cinfo
    ∧ ((is_Some (backchannel_logout_uri cinfo)
        ∧ ∃ spec,
            do_back_channel_logout self cinfo
              (get_sub_by_sid (sso_db (endpoint_context self)) csid) csid
            = Ok spec
            ∧ st = (dict_set cid spec bc0, fc0))
       ∨ (backchannel_logout_uri cinfo = None
          ∧ is_Some (frontchannel_logout_uri cinfo)
          ∧ ∃ iframe,
              do_front_channel_logout_iframe cinfo
                (issuer (endpoint_context self)) csid = Ok iframe
              ∧ st = (bc0, fc0 ++ [iframe]))
       ∨ (backchannel_logout_uri cinfo = None
          ∧ frontchannel_logout_uri cinfo = None
          ∧ st = (bc0, fc0))).
Proof.
  unfold classify_client. cbv zeta.
  destruct (cdb (endpoint_context self) !! cid) as [cinfo|]; [|discriminate].
  result_step. intros Hrun. exists cinfo. split; [reflexivity|].
  destruct (bool_decide_reflect (is_Some (backchannel_logout_uri cinfo)))
    as [Hbc|Hbc].
  - left. split; [exact Hbc|].
    destruct (do_back_channel_logout self cinfo _ csid) as [spec|e];
      [|discriminate Hrun].
    exists spec. split; [reflexivity|]. now injection Hrun as <-.
  - right. apply eq_None_not_Some in Hbc.
    destruct (bool_decide_reflect (is_Some (frontchannel_logout_uri cinfo)))
      as [Hfc|Hfc].
    + left. split; [exact Hbc|]. split; [exact Hfc|].
      destruct (do_front_channel_logout_iframe cinfo _ csid) as [iframe|e];
        [|discriminate Hrun].
      exists iframe. split; [reflexivity|]. now injection Hrun as <-.
    + right. apply eq_None_not_Some in Hfc.
      split; [exact Hbc|]. split; [exact Hfc|]. now injection Hrun as <-.
Qed.

(** The loop that fills [bc_logouts] and [fc_iframes] deals with each
    target once, when no two targets have the same client. *)
Lemma classify_clients_notified (self : Session) (cs : list (string * string))
  (bc0 bc : list (string * (string * string))) (fc0 fc : list string) :
  for_each (classify_client self) cs (bc0, fc0) = Ok (bc, fc) ->
  NoDup cs.*1 ->
  (forall k, k ∈ cs.*1 -> k ∉ bc0.*1) ->
  ∃ bcn fcn, bc = bc0 ++ bcn ∧ fc = fc0 ++ fcn ∧ notified self cs bcn fcn.
Proof.
  revert bc0 fc0. induction cs as [|[cid csid] cs IH];
    intros bc0 fc0 Hrun Hnodup Hfresh.
  - injection Hrun as <- <-. exists [], [].
    rewrite !app_nil_r. repeat split. constructor.
  - cbn [for_each] in Hrun.
    destruct (classify_client self (bc0, fc0) (cid, csid)) as [st|e] eqn:Hstep;
      [|discriminate Hrun].
    result_step in Hrun.
    cbn [fmap list_fmap fst] in Hnodup, Hfresh.
    apply NoDup_cons in Hnodup as [Hcid Hnodup].
    apply classify_client_cases in Hstep
      as (cinfo & Hcinfo & [(Hbc & spec & Hspec & ->)
                           | [(Hbc & Hfc & iframe & Hiframe & ->)
                             | (Hbc & Hfc & ->)]]).
    + rewrite dict_set_fresh in Hrun
        by (apply Hfresh; apply list_elem_of_here).
      destruct (IH _ _ Hrun Hnodup) as (bcn & fcn & -> & -> & Hnot).
      { intros k Hk. rewrite fmap_app. intros Hin.
        apply elem_of_app in Hin as [Hin|Hin].
        - revert Hin. apply Hfresh. now apply list_elem_of_further.
        - apply list_elem_of_singleton in Hin. cbn in Hin. congruence. }
      exists ((cid, spec) :: bcn), fcn. rewrite <- app_assoc.
      repeat split. now apply (notified_back _ _ _ cinfo).
    + destruct (IH _ _ Hrun Hnodup) as (bcn & fcn & -> & -> & Hnot).
      { intros k Hk. apply Hfresh. now apply list_elem_of_further. }
      exists bcn, (iframe :: fcn). rewrite <- app_assoc.
      repeat split. now apply (notified_front _ _ _ cinfo).
    + destruct (IH _ _ Hrun Hnodup) as (bcn & fcn & -> & -> & Hnot).
      { intros k Hk. apply Hfresh. now apply list_elem_of_further. }
      exists bcn, fcn. repeat split. now apply (notified_none _ _ _ cinfo).
Qed.

(** C10. The targets of an all-clients logout are keyed by client: no
    client appears twice among them, each client is paired with the last
    of its sessions in the order of the single-sign-on index, and each
    target is notified once, for that session. *)
Theorem all_clients_keyed_by_client_id (self : Session) (sid client_id : string)
  (cs : list (string * string)) :
  client_sid self sid = Ok cs ->
  NoDup cs.*1
  ∧ (forall cid,
       dict_get cid cs
       = last (sessions_of_client self cid
                 (get_sids_by_uid (sso_db (endpoint_context self))
                    (get_uid_by_sid (sso_db (endpoint_context self)) sid))))
  ∧ (forall bc fc,
       for_each (classify_client self) cs ([], []) = Ok (bc, fc) ->
       notified self cs bc fc
       ∧ outcome (logout_all_clients self sid client_id) = Ok fc
       ∧ posts (trace (logout_all_clients self sid client_id)) = post_of <$> bc).
Proof.
  intros Hcs.
  destruct (collect_client_sid self _ [] cs Hcs) as [Hnodup Hget];
    [constructor|].
  split; [exact Hnodup|]. split.
  - intros cid. rewrite Hget. now destruct (last _).
  - intros bc fc Hclassify.
    destruct (classify_clients_notified self cs [] bc [] fc Hclassify Hnodup)
      as (bcn & fcn & -> & -> & Hnot).
    { intros k _ Hin. now apply elem_of_nil in Hin. }
    split; [exact Hnot|].
    now apply (logout_all_clients_run self sid client_id cs).
Qed.

Lemma all_clients_keyed_by_client_id_witness :
  sessions_of_client (Scenario.endpoint true) "rp1" ["s1"; "s2"; "s3"; "s4"]
  = ["s1"; "s4"]
  ∧ client_sid (Scenario.endpoint true) "s1"
    = Ok [("rp1", "s4"); ("rp2", "s2"); ("rp3", "s3")]
  ∧ dict_get "rp1" [("rp1", "s4"); ("rp2", "s2"); ("rp3", "s3")]
    = last (sessions_of_client (Scenario.endpoint true) "rp1"
              ["s1"; "s2"; "s3"; "s4"])
  ∧ outcome (logout_all_clients (Scenario.endpoint true) "s1" "rp1")
    = Ok ["<iframe src=" +:+ dquote
          +:+ "https://rp1/logout?iss=https%3A%2F%2Fop.example.com&sid=s4"
          +:+ dquote +:+ ">";
          "<iframe src=" +:+ dquote +:+ "https://rp3/logout" +:+ dquote +:+ ">"]
  ∧ posts (trace (logout_all_clients (Scenario.endpoint true) "s1" "rp1"))
    = [("https://rp2/bc_logout", "logout_token=ES256.logout,alice,s2.rp2")].
Proof.
  destruct (all_clients_keyed_by_client_id (Scenario.endpoint true) "s1" "rp1"
              [("rp1", "s4"); ("rp2", "s2"); ("rp3", "s3")])
    as (_ & Hget & Hrun); [vm_compute; reflexivity|].
  destruct (Hrun [("rp2", ("https://rp2/bc_logout", "ES256.logout,alice,s2.rp2"))]
              ["<iframe src=" +:+ dquote
               +:+ "https://rp1/logout?iss=https%3A%2F%2Fop.example.com&sid=s4"
               +:+ dquote +:+ ">";
               "<iframe src=" +:+ dquote +:+ "https://rp3/logout" +:+ dquote
               +:+ ">"])
    as (_ & Hout & Hposts); [vm_compute; reflexivity|].
  split; [vm_compute; reflexivity|]. split; [vm_compute; reflexivity|].
  split; [exact (Hget "rp1")|]. split; [exact Hout | exact Hposts].
Defined.

(** *** Delivery failures *)

(** The status codes the relying parties answer with change neither the
    result of [logout_all_clients] nor the requests it sends. *)
Lemma logout_all_clients_answers (self : Session)
  (answer : string -> string -> bool -> Z) (sid client_id : string) :
  outcome (logout_all_clients (answering answer self) sid client_id)
  = outcome (logout_all_clients self sid client_id)
  ∧ posts (trace (logout_all_clients (answering answer self) sid client_id))
    = posts (trace (logout_all_clients self sid client_id)).
Proof.
  assert (Hcs : client_sid (answering answer self) sid = client_sid self sid)
    by reflexivity.
  assert (Hclassify : forall cs st,
            for_each (classify_client (answering answer self)) cs st
            = for_each (classify_client self) cs st) by reflexivity.
  destruct (client_sid self sid) as [cs|e] eqn:Hrun.
  - destruct (for_each (classify_client self) cs ([], [])) as [[bc fc]|e]
      eqn:Hrun'.
    + destruct (logout_all_clients_run self sid client_id cs bc fc Hrun Hrun')
        as [-> ->].
      rewrite <- Hclassify in Hrun'.
      now destruct (logout_all_clients_run (answering answer self) sid
                      client_id cs bc fc Hcs Hrun') as [-> ->].
    + unfold logout_all_clients.
      rewrite (lift_bind _ _ cs Hcs), (lift_bind _ _ cs Hrun).
      rewrite <- Hclassify in Hrun'.
      rewrite (lift_bind_raise _ _ e Hrun').
      rewrite Hclassify in Hrun'.
      now rewrite (lift_bind_raise _ _ e Hrun').
  - unfold logout_all_clients.
    now rewrite (lift_bind_raise _ _ e Hcs), (lift_bind_raise _ _ e Hrun).
Qed.

(** C5. Whatever status codes the back-channel endpoints answer with, 500
    included, the result of [logout_all_clients] and the requests it sends
    are the same; once the targets are classified it posts the logout
    token of every back-channel party, returns every front-channel iframe
    and does not raise; [kill_session] then revokes the session and hands
    the iframes on. *)
Theorem partial_failure_isolation (self : Session) (sid client_id : string)
  (request : EndSessionRequest) (cs : list (string * string))
  (bc : list (string * (string * string))) (fc : list string) :
  client_sid self sid = Ok cs ->
  for_each (classify_client self) cs ([], []) = Ok (bc, fc) ->
  (forall answer,
     outcome (logout_all_clients (answering answer self) sid client_id) = Ok fc
     ∧ posts (trace (logout_all_clients (answering answer self) sid client_id))
       = post_of <$> bc)
  ∧ outcome (logout_all_clients self sid client_id) = Ok fc
  ∧ posts (trace (logout_all_clients self sid client_id)) = post_of <$> bc
  ∧ fst (kill_session self sid request (Some fc))
    = revoke_session (sdb (endpoint_context self)) sid
  ∧ logout_iframes (snd (kill_session self sid request (Some fc))) = Some fc
  ∧ (forall session,
       sdb (endpoint_context self) !! sid = Some session ->
       revoked <$> fst (kill_session self sid request (Some fc)) !! sid
       = Some true).
Proof.
  intros Hcs Hclassify.
  destruct (logout_all_clients_run self sid client_id cs bc fc Hcs Hclassify)
    as [Hout Hposts].
  split.
  { intros answer.
    destruct (logout_all_clients_answers self answer sid client_id)
      as [-> ->].
    now split. }
  split; [exact Hout|]. split; [exact Hposts|].
  split; [reflexivity|]. split; [reflexivity|].
  intros session Hsession. unfold kill_session, revoke_session. cbv zeta.
  cbn [fst]. rewrite lookup_alter_eq, Hsession. reflexivity.
Qed.

Lemma partial_failure_isolation_witness :
  httpc_post (Scenario.context false) "https://rp2/bc_logout"
    "logout_token=ES256.logout,alice,s2.rp2" true = 500%Z
  ∧ outcome (logout_all_clients (Scenario.endpoint false) "s1" "rp1")
    = Ok ["<iframe src=" +:+ dquote
          +:+ "https://rp1/logout?iss=https%3A%2F%2Fop.example.com&sid=s1"
          +:+ dquote +:+ ">";
          "<iframe src=" +:+ dquote +:+ "https://rp3/logout" +:+ dquote +:+ ">"]
  ∧ posts (trace (logout_all_clients (Scenario.endpoint false) "s1" "rp1"))
    = [("https://rp2/bc_logout", "logout_token=ES256.logout,alice,s2.rp2")]
  ∧ revoked <$> fst (kill_session (Scenario.endpoint false) "s1"
                       (Scenario.no_hint None)
                       (Some ["<iframe src=" +:+ dquote
          +:+ "https://rp1/logout?iss=https%3A%2F%2Fop.example.com&sid=s1"
          +:+ dquote +:+ ">";
          "<iframe src=" +:+ dquote +:+ "https://rp3/logout" +:+ dquote +:+ ">"]))
                 !! "s1"
    = Some true.
Proof.
  destruct (partial_failure_isolation (Scenario.endpoint false) "s1" "rp1"
              (Scenario.no_hint None)
              [("rp1", "s1"); ("rp2", "s2"); ("rp3", "s3")]
              [("rp2", ("https://rp2/bc_logout", "ES256.logout,alice,s2.rp2"))]
              ["<iframe src=" +:+ dquote
               +:+ "https://rp1/logout?iss=https%3A%2F%2Fop.example.com&sid=s1"
               +:+ dquote +:+ ">";
               "<iframe src=" +:+ dquote +:+ "https://rp3/logout" +:+ dquote
               +:+ ">"])
    as (_ & Hout & Hposts & _ & _ & Hrevoked);
    [vm_compute; reflexivity | vm_compute; reflexivity |].
  split; [reflexivity|]. split; [exact Hout|]. split; [exact Hposts|].
  apply (Hrevoked (Scenario.live "rp1")). vm_compute. reflexivity.
Defined.

(** The other path of [do_verified_logout]: in an all-clients logout
    [rp2], which registered both logout URIs, is posted its logout token
    and contributes no iframe. *)
Lemma logout_all_clients_back_channel_first :
  outcome (logout_all_clients (Scenario.endpoint false) "s2" "rp2")
  = Ok ["<iframe src=" +:+ dquote
        +:+ "https://rp1/logout?iss=https%3A%2F%2Fop.example.com&sid=s1"
        +:+ dquote +:+ ">";
        "<iframe src=" +:+ dquote +:+ "https://rp3/logout" +:+ dquote +:+ ">"]
  ∧ posts (trace (logout_all_clients (Scenario.endpoint false) "s2" "rp2"))
    = [("https://rp2/bc_logout", "logout_token=ES256.logout,alice,s2.rp2")].
Proof. split; vm_compute; reflexivity. Qed.

(** ** Further properties *)

(** *** Quoting and splitting *)

Lemma occurs_append (c : ascii) (a b : string) :
  occurs c (a +:+ b) = occurs c a || occurs c b.
Proof.
  induction a as [|x a IH]; [reflexivity|].
  rewrite append_cons. cbn [occurs]. rewrite IH. apply orb_assoc.
Qed.

Lemma hex_digit_safe (n : N) : always_safe (hex_digit n) = true.
Proof.
  destruct n as [|p]; [reflexivity|].
  do 5 (try (destruct p as [p|p|]; try reflexivity)).
Qed.

Lemma quote_plus_byte_quoted (c x : ascii) :
  occurs c (quote_plus_byte x) = true -> quoted_byte c = true.
Proof.
  unfold quote_plus_byte, quoted_byte.
  destruct (Ascii.eqb_spec x " ") as [->|_].
  - cbn [occurs]. rewrite orb_false_r. intros ->.
    now destruct (always_safe c).
  - destruct (always_safe x) eqn:Hsafe.
    + cbn [occurs]. rewrite orb_false_r. intros Heq.
      apply Ascii.eqb_eq in Heq. subst. now rewrite Hsafe.
    + cbn [occurs]. rewrite orb_false_r.
      intros H. apply orb_true_iff in H as [H|H];
        [rewrite H; now destruct (always_safe c), (Ascii.eqb c "+")|].
      apply orb_true_iff in H as [H|H]; apply Ascii.eqb_eq in H; subst;
        now rewrite hex_digit_safe.
Qed.

Lemma quote_plus_quoted (c : ascii) (s : string) :
  occurs c (quote_plus s) = true -> quoted_byte c = true.
Proof.
  induction s as [|x s IH]; [discriminate|].
  cbn [quote_plus]. rewrite occurs_append. intros H.
  apply orb_true_iff in H as [H|H]; [|now apply IH].
  now apply (quote_plus_byte_quoted c x).
Qed.

Lemma occurs_join (c : ascii) (sep : string) (l : list string) :
  occurs c (join sep l) = true ->
  occurs c sep = true ∨ ∃ x, x ∈ l ∧ occurs c x = true.
Proof.
  induction l as [|x l IH]; [discriminate|].
  destruct l as [|y l].
  - intros H. right. exists x. split; [apply list_elem_of_here | exact H].
  - change (join sep (x :: y :: l)) with (x +:+ sep +:+ join sep (y :: l)).
    rewrite !occurs_append. intros H.
    apply orb_true_iff in H as [H|H].
    + right. exists x. split; [apply list_elem_of_here | exact H].
    + apply orb_true_iff in H as [H|H]; [now left|].
      destruct (IH H) as [Hsep | (z & Hz & Hc)]; [now left|].
      right. exists z. split; [now apply list_elem_of_further | exact Hc].
Qed.

(** No byte that is not written by [quote_plus], [=] and [&] apart, occurs
    in an encoded query. *)
Lemma urlencode_quoted (c : ascii) (query : list (string * string)) :
  occurs c (urlencode query) = true ->
  quoted_byte c = true ∨ c = "="%char ∨ c = "&"%char.
Proof.
  unfold urlencode. intros H.
  apply occurs_join in H as [H | (x & Hx & H)].
  - right. right. cbn [occurs] in H. rewrite orb_false_r in H.
    now apply Ascii.eqb_eq.
  - apply list_elem_of_fmap in Hx as ([k v] & -> & _).
    cbn [fst snd] in H. rewrite !occurs_append in H.
    cbn [occurs] in H. rewrite orb_false_r in H.
    apply orb_true_iff in H as [H|H];
      [left; now apply (quote_plus_quoted c k)|].
    apply orb_true_iff in H as [H|H];
      [right; left; now apply Ascii.eqb_eq
      |left; now apply (quote_plus_quoted c v)].
Qed.

Lemma urlencode_no_query_mark (query : list (string * string)) :
  occurs "?" (urlencode query) = false.
Proof.
  destruct (occurs "?" (urlencode query)) eqn:H; [|reflexivity].
  apply urlencode_quoted in H as [H|[H|H]]; discriminate H.
Qed.

Lemma rpartition_query_none (s : string) :
  occurs "?" s = false -> rpartition_query s = None.
Proof.
  induction s as [|x s IH]; [reflexivity|].
  cbn [occurs rpartition_query]. intros H.
  apply orb_false_iff in H as [Hx Hs]. rewrite (IH Hs).
  rewrite Ascii.eqb_sym. now rewrite Hx.
Qed.

(** [splitquery] splits at the last [?]. *)
Lemma splitquery_append (path query : string) :
  occurs "?" query = false ->
  splitquery (path +:+ "?" +:+ query) = (path, Some query).
Proof.
  intros Hq. unfold splitquery.
  assert (H : rpartition_query (path +:+ "?" +:+ query) = Some (path, query)).
  { induction path as [|x path IH].
    - change ("" +:+ "?" +:+ query) with (String "?" query).
      cbn [rpartition_query]. now rewrite (rpartition_query_none _ Hq).
    - rewrite append_cons. cbn [rpartition_query]. now rewrite IH. }
  now rewrite H.
Qed.

Lemma rpartition_query_unsplit (url path query : string) :
  rpartition_query url = Some (path, query) ->
  url = path +:+ "?" +:+ query ∧ occurs "?" query = false.
Proof.
  revert path. induction url as [|x url IH]; intros path; [discriminate|].
  cbn [rpartition_query].
  destruct (rpartition_query url) as [[p q]|] eqn:Hrest.
  - intros [= <- <-]. destruct (IH p eq_refl) as [-> Hq].
    split; [reflexivity | exact Hq].
  - destruct (Ascii.eqb_spec x "?") as [->|_]; [|discriminate].
    intros [= <- <-]. split; [reflexivity|].
    clear IH. induction url as [|y url IH]; [reflexivity|].
    cbn [rpartition_query] in Hrest. cbn [occurs].
    destruct (rpartition_query url) as [[p q]|]; [discriminate|].
    destruct (Ascii.eqb_spec y "?") as [->|Hne]; [discriminate|].
    rewrite (IH eq_refl). rewrite orb_false_r.
    apply Ascii.eqb_neq. congruence.
Qed.

Lemma unsplit_splitquery (url : string) : unsplit (splitquery url) = url.
Proof.
  unfold splitquery.
  destruct (rpartition_query url) as [[path query]|] eqn:H; [|reflexivity].
  now destruct (rpartition_query_unsplit _ _ _ H) as [-> _].
Qed.

(** *** The markup and the URLs the endpoint builds *)

(** X1. With sessions required, the issuer and the session id reach the
    iframe only percent-encoded: the query holds no byte outside those
    [quote_plus] writes, [=] and [&], so no double quote, and the [src]
    splits back into the registered URI and the query. *)
Theorem front_channel_iframe_quoted (cinfo : ClientInfo) (iss sid uri : string) :
  frontchannel_logout_uri cinfo = Some uri ->
  frontchannel_logout_session_required cinfo = Some true ->
  ∃ query,
    do_front_channel_logout_iframe cinfo iss sid
    = Ok ("<iframe src=" +:+ dquote +:+ uri +:+ "?" +:+ query +:+ dquote +:+ ">")
    ∧ (forall c, occurs c query = true ->
                 quoted_byte c = true ∨ c = "="%char ∨ c = "&"%char)
    ∧ occurs "034" query = false
    ∧ splitquery (uri +:+ "?" +:+ query) = (uri, Some query).
Proof.
  intros Huri Hreq. exists (urlencode [("iss", iss); ("sid", sid)]).
  split; [|split; [|split]].
  - unfold do_front_channel_logout_iframe. now rewrite Huri, Hreq.
  - intros c. apply urlencode_quoted.
  - destruct (occurs "034" (urlencode [("iss", iss); ("sid", sid)])) eqn:H;
      [|reflexivity].
    apply urlencode_quoted in H as [H|[H|H]]; discriminate H.
  - apply splitquery_append, urlencode_no_query_mark.
Qed.

Lemma front_channel_iframe_quoted_witness :
  ∃ query,
    do_front_channel_logout_iframe Scenario.rp1 "https://op.example.com/?a=b"
      (String "034" "s1")
    = Ok ("<iframe src=" +:+ dquote +:+ "https://rp1/logout" +:+ "?" +:+ query
          +:+ dquote +:+ ">")
    ∧ occurs "034" query = false.
Proof.
  destruct (front_channel_iframe_quoted Scenario.rp1
              "https://op.example.com/?a=b" (String "034" "s1")
              "https://rp1/logout" eq_refl eq_refl)
    as (query & Hframe & _ & Hquote & _).
  exists query. split; [exact Hframe | exact Hquote].
Defined.

(** X2. When the request carries a [post_logout_redirect_uri] and a
    [state], [kill_session] redirects to the URI followed by [?state=]
    and the percent-encoded state, which splits back into the URI and
    that one parameter; without a [state] it redirects to the URI as it
    is. *)
Theorem kill_session_redirect_uri (self : Session) (sid : string)
  (request : EndSessionRequest) (fc_iframes : option (list string))
  (uri : string) :
  post_logout_redirect_uri request = Some uri ->
  (forall st, state request = Some st ->
     response_args (snd (kill_session self sid request fc_iframes))
     = uri +:+ "?state=" +:+ quote_plus st
     ∧ splitquery (response_args (snd (kill_session self sid request fc_iframes)))
       = (uri, Some ("state=" +:+ quote_plus st)))
  ∧ (state request = None ->
     response_args (snd (kill_session self sid request fc_iframes)) = uri).
Proof.
  intros Huri. split.
  - intros st Hst.
    assert (H : response_args (snd (kill_session self sid request fc_iframes))
                = uri +:+ "?" +:+ urlencode [("state", st)]).
    { unfold kill_session. cbv zeta. cbn [snd response_args].
      now rewrite Huri, Hst. }
    rewrite H. split; [reflexivity|].
    rewrite (splitquery_append uri _ (urlencode_no_query_mark _)).
    reflexivity.
  - intros Hst. unfold kill_session. cbv zeta. cbn [snd response_args].
    now rewrite Huri, Hst.
Qed.

Lemma kill_session_redirect_uri_witness :
  response_args (snd (kill_session (Scenario.endpoint false) "s1"
                        (Cases.request_with_state (Some "https://rp1/cb?x=1")
                           (Some "a b?c"))
                        None))
  = "https://rp1/cb?x=1?state=a+b%3Fc"
  ∧ splitquery "https://rp1/cb?x=1?state=a+b%3Fc"
    = ("https://rp1/cb?x=1", Some "state=a+b%3Fc").
Proof.
  destruct (kill_session_redirect_uri (Scenario.endpoint false) "s1"
              (Cases.request_with_state (Some "https://rp1/cb?x=1")
                 (Some "a b?c"))
              None "https://rp1/cb?x=1" eq_refl) as [Hstate _].
  destruct (Hstate "a b?c" eq_refl) as [Hargs Hsplit].
  split; [exact Hargs|]. rewrite Hargs in Hsplit. exact Hsplit.
Defined.

(** X4. Without an error, [do_response] answers with the configured
    [logout_uri] followed by [?] and the encoded keyword arguments, a URL
    that splits back into the two, under the content type and the
    no-cache headers; [response_args] and [request] play no part. *)
Theorem do_response_url (base : EndpointBase) (uri : string)
  (response_args : option (list (string * string)))
  (request : option EndSessionRequest) (kwargs : list (string * string)) :
  ∃ r,
    do_response base (Some uri) response_args request "" kwargs = Ok r
    ∧ do_response base (Some uri) None None "" kwargs = Ok r
    ∧ response r = uri +:+ "?" +:+ urlencode kwargs
    ∧ splitquery (response r) = (uri, Some (urlencode kwargs))
    ∧ http_headers r
      = ("Content-type", URL_ENCODED base) :: OAUTH2_NOCACHE_HEADERS base.
Proof.
  eexists. split; [reflexivity|]. split; [reflexivity|].
  split; [reflexivity|]. split; [|reflexivity].
  cbn [response]. apply splitquery_append, urlencode_no_query_mark.
Qed.

(** *** Request processing, further *)

(** X5. A cookie the dealer cannot read ([IndexError]) makes
    [process_request] fail with [InvalidRequest('Cookie error')], and a
    cookie whose document has no [sid] makes it fail with
    [KeyError('sid')], whatever the request holds. *)
Theorem process_request_cookie_errors (self : Session)
  (request : EndSessionRequest) (cookie : option string) :
  (get_cookie_value (cookie_dealer (endpoint_context self)) cookie
     (name (cookie_dealer (endpoint_context self))) = Raise IndexError ->
   process_request self request cookie = Raise MalformedRequest)
  ∧ (forall value doc,
       get_cookie_value (cookie_dealer (endpoint_context self)) cookie
         (name (cookie_dealer (endpoint_context self))) = Ok (Some value) ->
       cookie_loads (endpoint_context self) value = Ok doc ->
       doc !! "sid" = None ->
       process_request self request cookie = Raise (KeyError "sid")).
Proof.
  split.
  - intros H. apply process_request_raise. unfold request_sid, cookie_sid.
    cbv zeta. now rewrite H.
  - intros value doc H Hdoc Hsid. apply process_request_raise.
    unfold request_sid, cookie_sid. cbv zeta. rewrite H. result_step.
    rewrite Hdoc. result_step. now rewrite Hsid.
Qed.

Lemma process_request_cookie_errors_witness :
  process_request
    (Cases.provider Cases.broken_dealer (fun value => Ok {["sid" := value]})
       (cdb (Scenario.context false)) (Scenario.sessions false)
       (Scenario.sso false) None None (fun _ _ _ => 200%Z) (Some "RS256"))
    (Scenario.hint_of "bob") (Some "s1")
  = Raise MalformedRequest
  ∧ process_request
      (Cases.provider Scenario.dealer Cases.loads_without_sid
         (cdb (Scenario.context false)) (Scenario.sessions false)
         (Scenario.sso false) None None (fun _ _ _ => 200%Z) (Some "RS256"))
      (Scenario.hint_of "bob") (Some "s1")
    = Raise (KeyError "sid").
Proof.
  split.
  - destruct (process_request_cookie_errors
                (Cases.provider Cases.broken_dealer
                   (fun value => Ok {["sid" := value]})
                   (cdb (Scenario.context false)) (Scenario.sessions false)
                   (Scenario.sso false) None None (fun _ _ _ => 200%Z)
                   (Some "RS256")) (Scenario.hint_of "bob") (Some "s1"))
      as [Hindex _].
    apply Hindex. reflexivity.
  - destruct (process_request_cookie_errors
                (Cases.provider Scenario.dealer Cases.loads_without_sid
                   (cdb (Scenario.context false)) (Scenario.sessions false)
                   (Scenario.sso false) None None (fun _ _ _ => 200%Z)
                   (Some "RS256")) (Scenario.hint_of "bob") (Some "s1"))
      as [_ Hsid].
    apply (Hsid "s1" {["state" := "s1"]}); reflexivity.
Defined.

(** X6. When the cookie and the [id_token_hint] resolve to the same sid,
    there is no mismatch and the request is processed for that sid. *)
Theorem session_hint_agreement (self : Session) (request : EndSessionRequest)
  (cookie : option string) (sid : string) :
  cookie_sid self cookie = Ok sid ->
  hint_resolves_to self request sid ->
  request_sid self request cookie = Ok sid.
Proof.
  intros Hcookie Hhint. unfold request_sid. rewrite Hcookie. result_step.
  rewrite (effective_sid_hint _ _ _ _ Hhint).
  destruct (bool_decide (sid ≠ "")); [|reflexivity].
  now rewrite bool_decide_eq_false_2 by (intros H; now apply H).
Qed.

Lemma session_hint_agreement_witness :
  request_sid (Scenario.endpoint false) (Scenario.hint_of "bob") (Some "s5")
  = Ok "s5".
Proof.
  apply (session_hint_agreement (Scenario.endpoint false)
           (Scenario.hint_of "bob") (Some "s5") "s5"); [reflexivity|].
  eexists _, _, "bob", []. repeat split.
Defined.

(** X7. An [id_token_hint] whose subject has no session makes
    [process_request] fail with [IndexError], with or without a valid
    cookie; a hint the request holds no verified claim for makes it fail
    with [KeyError]. *)
Theorem hint_resolution_errors (self : Session) (request : EndSessionRequest)
  (cookie : option string) (sid hint : string) :
  cookie_sid self cookie = Ok sid ->
  id_token_hint request = Some hint ->
  (forall ith sub,
     verified_id_token_hint request = Some ith -> it_sub ith = Some sub ->
     get_sids_by_sub (sso_db (endpoint_context self)) sub = [] ->
     process_request self request cookie = Raise IndexError)
  ∧ (verified_id_token_hint request = None ->
     process_request self request cookie
     = Raise (KeyError "__verified_id_token_hint")).
Proof.
  intros Hcookie Hhint. split.
  - intros ith sub Hith Hsub Hsids. apply process_request_raise.
    unfold request_sid. rewrite Hcookie. result_step.
    unfold effective_sid. cbv zeta. rewrite Hhint, Hith. result_step.
    rewrite Hsub. result_step. now rewrite Hsids.
  - intros Hith. apply process_request_raise.
    unfold request_sid. rewrite Hcookie. result_step.
    unfold effective_sid. cbv zeta. now rewrite Hhint, Hith.
Qed.

Lemma hint_resolution_errors_witness :
  process_request (Scenario.endpoint false) (Scenario.hint_of "carol") (Some "s1")
  = Raise IndexError.
Proof.
  destruct (hint_resolution_errors (Scenario.endpoint false)
              (Scenario.hint_of "carol") (Some "s1") "s1" "eyJ.hint"
              eq_refl eq_refl) as [Hnone _].
  apply (Hnone {| it_sub := Some "carol"; it_alg := "RS256" |} "carol");
    reflexivity.
Defined.

(** What an issued confirmation token went through. *)
Lemma process_request_inv (self : Session) (request : EndSessionRequest)
  (cookie : option string) (sjwt : string) :
  process_request self request cookie = Ok sjwt ->
  ∃ sid session cinfo uri alg,
    request_sid self request cookie = Ok sid
    ∧ sdb (endpoint_context self) !! sid = Some session
    ∧ cdb (endpoint_context self) !! authn_req_client_id session = Some cinfo
    ∧ resolve_redirect_uri cinfo request = Ok uri
    ∧ signing_alg self = Some alg
    ∧ sjwt = pack (endpoint_context self)
               {| jwt_iss := issuer (endpoint_context self);
                  jwt_lifetime := 86400; jwt_sign_alg := alg;
                  with_jti := false |}
               (LogoutConfirmation sid (authn_req_client_id session) uri)
               (issuer (endpoint_context self)).
Proof.
  unfold process_request, confirmation_payload. cbv zeta.
  destruct (request_sid self request cookie) as [sid|e]; [|discriminate].
  result_step.
  destruct (sdb (endpoint_context self) !! sid) as [session|] eqn:Hsession;
    [|discriminate].
  result_step.
  destruct (cdb (endpoint_context self) !! authn_req_client_id session)
    as [cinfo|] eqn:Hcinfo; [|discriminate].
  result_step.
  destruct (resolve_redirect_uri cinfo request) as [uri|e] eqn:Huri;
    [|discriminate].
  result_step.
  destruct (signing_alg self) as [alg|]; [|discriminate].
  result_step. intros [= <-].
  now exists sid, session, cinfo, uri, alg.
Qed.

(** X8. [process_request] issues a confirmation token exactly when the
    request's sid is that of a stored session, the session's client is
    registered, the redirect URI resolves and a signing algorithm is
    configured; the token is then signed with that algorithm for 86400
    seconds, issued by and addressed to the issuer, and carries the sid,
    the session's client and the resolved redirect URI. *)
Theorem process_request_issues (self : Session) (request : EndSessionRequest)
  (cookie : option string) (sjwt : string) :
  process_request self request cookie = Ok sjwt
  <-> ∃ sid session cinfo uri alg,
        request_sid self request cookie = Ok sid
        ∧ sdb (endpoint_context self) !! sid = Some session
        ∧ cdb (endpoint_context self) !! authn_req_client_id session = Some cinfo
        ∧ resolve_redirect_uri cinfo request = Ok uri
        ∧ signing_alg self = Some alg
        ∧ sjwt = pack (endpoint_context self)
                   {| jwt_iss := issuer (endpoint_context self);
                      jwt_lifetime := 86400; jwt_sign_alg := alg;
                      with_jti := false |}
                   (LogoutConfirmation sid (authn_req_client_id session) uri)
                   (issuer (endpoint_context self)).
Proof.
  split; [apply process_request_inv|].
  intros (sid & session & cinfo & uri & alg
          & Hsid & Hsession & Hcinfo & Huri & Halg & ->).
  unfold process_request.
  rewrite (confirmation_payload_resolved _ _ _ _ _ _ Hsid Hsession Hcinfo).
  rewrite Huri, Halg. reflexivity.
Qed.

(** X9. The first check that fails decides the error: a sid without a
    stored session gives [UnknownSession] whatever the redirect URI is; a
    session whose client is not registered gives [KeyError] with the
    client's id; and a signing algorithm that is not configured gives
    [KeyError('signing_alg')] only after everything else has passed. *)
Theorem process_request_first_failure (self : Session)
  (request : EndSessionRequest) (cookie : option string) (sid : string) :
  request_sid self request cookie = Ok sid ->
  (sdb (endpoint_context self) !! sid = None ->
   process_request self request cookie = Raise UnknownSession)
  ∧ (forall session,
       sdb (endpoint_context self) !! sid = Some session ->
       cdb (endpoint_context self) !! authn_req_client_id session = None ->
       process_request self request cookie
       = Raise (KeyError (authn_req_client_id session)))
  ∧ (forall session cinfo uri,
       sdb (endpoint_context self) !! sid = Some session ->
       cdb (endpoint_context self) !! authn_req_client_id session = Some cinfo ->
       resolve_redirect_uri cinfo request = Ok uri ->
       signing_alg self = None ->
       process_request self request cookie = Raise (KeyError "signing_alg")).
Proof.
  intros Hsid. split; [|split].
  - intros Hnone. unfold process_request, confirmation_payload. cbv zeta.
    rewrite Hsid. result_step. now rewrite Hnone.
  - intros session Hsession Hnone.
    unfold process_request, confirmation_payload. cbv zeta.
    rewrite Hsid. result_step. rewrite Hsession. result_step.
    now rewrite Hnone.
  - intros session cinfo uri Hsession Hcinfo Huri Halg.
    unfold process_request.
    rewrite (confirmation_payload_resolved _ _ _ _ _ _ Hsid Hsession Hcinfo).
    now rewrite Huri, Halg.
Qed.

Lemma process_request_first_failure_witness :
  process_request Cases.endpoint
    (Scenario.no_hint (Some "https://nowhere/cb")) (Some "s0")
  = Raise UnknownSession
  ∧ process_request Cases.endpoint (Scenario.no_hint None) (Some "s9")
    = Raise (KeyError "rp9")
  ∧ process_request
      (Cases.provider Scenario.dealer (fun value => Ok {["sid" := value]})
         (cdb (Scenario.context false)) (Scenario.sessions false)
         (Scenario.sso false) None None (fun _ _ _ => 200%Z) None)
      (Scenario.no_hint None) (Some "s1")
    = Raise (KeyError "signing_alg").
Proof.
  split; [|split].
  - destruct (process_request_first_failure Cases.endpoint
                (Scenario.no_hint (Some "https://nowhere/cb")) (Some "s0") "s0"
                eq_refl) as (Hunknown & _ & _).
    apply Hunknown. reflexivity.
  - destruct (process_request_first_failure Cases.endpoint
                (Scenario.no_hint None) (Some "s9") "s9" eq_refl)
      as (_ & Hclient & _).
    apply (Hclient (Scenario.live "rp9")); reflexivity.
  - destruct (process_request_first_failure
                (Cases.provider Scenario.dealer
                   (fun value => Ok {["sid" := value]})
                   (cdb (Scenario.context false)) (Scenario.sessions false)
                   (Scenario.sso false) None None (fun _ _ _ => 200%Z) None)
                (Scenario.no_hint None) (Some "s1") "s1")
      as (_ & _ & Halg); [vm_compute; reflexivity|].
    apply (Halg (Scenario.live "rp1") Scenario.rp1
             (RegisteredEntry ("https://rp1/cb", None))); reflexivity.
Defined.

Lemma process_request_issues_witness :
  process_request (Scenario.endpoint false)
    (Scenario.no_hint (Some "https://rp1/cb")) (Some "s1")
  = Ok "RS256.confirm,s1,rp1,https://rp1/cb.https://op.example.com".
Proof.
  apply (process_request_issues (Scenario.endpoint false)
           (Scenario.no_hint (Some "https://rp1/cb")) (Some "s1")).
  exists "s1", (Scenario.live "rp1"), Scenario.rp1,
    (RequestedUri "https://rp1/cb"), "RS256".
  repeat split; vm_compute; reflexivity.
Defined.

(** *** The redirect URI, further *)

(** X10. What the resolver accepts is registered: a URI it returns is the
    request's own and is a registered entry put together again, its path
    followed by [?] and its query when it has one; an entry it returns
    is the first registered one, and only for a request without a URI. *)
Theorem resolve_redirect_uri_sound (cinfo : ClientInfo)
  (request : EndSessionRequest) (target : redirect_target) :
  resolve_redirect_uri cinfo request = Ok target ->
  ∃ uris entry,
    post_logout_redirect_uris cinfo = Some uris
    ∧ entry ∈ uris
    ∧ match target with
      | RequestedUri uri =>
          post_logout_redirect_uri request = Some uri
          ∧ entry = splitquery uri ∧ uri = unsplit entry
      | RegisteredEntry first =>
          post_logout_redirect_uri request = None
          ∧ first = entry ∧ head uris = Some entry
      end.
Proof.
  unfold resolve_redirect_uri.
  destruct (post_logout_redirect_uri request) as [uri|];
    destruct (post_logout_redirect_uris cinfo) as [uris|]; try discriminate;
    result_step.
  - destruct (bool_decide_reflect (splitquery uri ∈ uris)) as [Hin|Hnin];
      [|discriminate].
    intros [= <-]. exists uris, (splitquery uri).
    rewrite unsplit_splitquery. now repeat split.
  - destruct uris as [|first uris]; [discriminate|].
    result_step. intros [= <-]. exists (first :: uris), first.
    repeat split. apply list_elem_of_here.
Qed.

Lemma resolve_redirect_uri_sound_witness :
  ∃ uris entry,
    post_logout_redirect_uris Cases.rp5 = Some uris
    ∧ entry ∈ uris
    ∧ post_logout_redirect_uri (Scenario.no_hint (Some "https://rp5/cb?x=1"))
      = Some "https://rp5/cb?x=1"
    ∧ entry = splitquery "https://rp5/cb?x=1"
    ∧ "https://rp5/cb?x=1" = unsplit entry.
Proof.
  destruct (resolve_redirect_uri_sound Cases.rp5
              (Scenario.no_hint (Some "https://rp5/cb?x=1"))
              (RequestedUri "https://rp5/cb?x=1"))
    as (uris & entry & H); [vm_compute; reflexivity|].
  exists uris, entry. exact H.
Defined.

(** X11. A client without the key [post_logout_redirect_uris] makes the
    resolver raise [KeyError] whether or not the request names a URI; a
    client with an empty list makes it raise [IndexError] for a request
    without a URI and [UnregisteredRedirectURI] for any URI. *)
Theorem resolve_redirect_uri_nothing_registered (cinfo : ClientInfo)
  (request : EndSessionRequest) :
  (post_logout_redirect_uris cinfo = None ->
   resolve_redirect_uri cinfo request
   = Raise (KeyError "post_logout_redirect_uris"))
  ∧ (post_logout_redirect_uris cinfo = Some [] ->
     resolve_redirect_uri cinfo request
     = match post_logout_redirect_uri request with
       | Some _ => Raise UnregisteredRedirectURI
       | None => Raise IndexError
       end).
Proof.
  unfold resolve_redirect_uri. split; intros ->.
  - now destruct (post_logout_redirect_uri request).
  - destruct (post_logout_redirect_uri request) as [uri|]; [|reflexivity].
    result_step. now rewrite bool_decide_eq_false_2 by apply not_elem_of_nil.
Qed.

Lemma resolve_redirect_uri_nothing_registered_witness :
  resolve_redirect_uri Cases.rp7 (Scenario.no_hint (Some "https://rp7/cb"))
  = Raise (KeyError "post_logout_redirect_uris")
  ∧ resolve_redirect_uri Cases.rp8 (Scenario.no_hint None) = Raise IndexError
  ∧ resolve_redirect_uri Cases.rp8 (Scenario.no_hint (Some "https://rp8/cb"))
    = Raise UnregisteredRedirectURI.
Proof.
  split; [|split].
  - destruct (resolve_redirect_uri_nothing_registered Cases.rp7
                (Scenario.no_hint (Some "https://rp7/cb"))) as [Hnone _].
    apply Hnone. reflexivity.
  - destruct (resolve_redirect_uri_nothing_registered Cases.rp8
                (Scenario.no_hint None)) as [_ Hempty].
    apply Hempty. reflexivity.
  - destruct (resolve_redirect_uri_nothing_registered Cases.rp8
                (Scenario.no_hint (Some "https://rp8/cb"))) as [_ Hempty].
    apply Hempty. reflexivity.
Defined.

(** *** The back-channel logout token *)

(** X12. [do_back_channel_logout] signs with the client's
    [id_token_signed_response_alg] when it is registered and with the
    provider's first supported algorithm otherwise; the token carries the
    subject and the session id it was given, is issued by the issuer for
    86400 seconds with a [jti], is addressed to the client, and is
    returned with the client's [backchannel_logout_uri]. *)
Theorem do_back_channel_logout_token (self : Session) (cinfo : ClientInfo)
  (sub sid uri recv alg : string) :
  backchannel_logout_uri cinfo = Some uri ->
  ci_client_id cinfo = Some recv ->
  (id_token_signed_response_alg cinfo = Some alg
   ∨ (id_token_signed_response_alg cinfo = None
      ∧ ∃ algs, id_token_signing_alg_values_supported (endpoint_context self)
                = Some (alg :: algs))) ->
  do_back_channel_logout self cinfo sub sid
  = Ok (uri,
        pack (endpoint_context self)
          {| jwt_iss := issuer (endpoint_context self); jwt_lifetime := 86400;
             jwt_sign_alg := alg; with_jti := true |}
          (LogoutToken sub sid) recv).
Proof.
  intros Huri Hrecv Halg. unfold do_back_channel_logout. cbv zeta.
  rewrite Huri. result_step.
  destruct Halg as [-> | [-> [algs ->]]]; result_step; now rewrite Hrecv.
Qed.

Lemma do_back_channel_logout_token_witness :
  do_back_channel_logout (Scenario.endpoint false) Scenario.rp2 "alice" "s2"
  = Ok ("https://rp2/bc_logout", "ES256.logout,alice,s2.rp2")
  ∧ do_back_channel_logout (Scenario.endpoint false) Cases.rp5 "alice" "s2"
    = Ok ("https://rp5/bc_logout", "RS256.logout,alice,s2.rp5").
Proof.
  split.
  - apply (do_back_channel_logout_token (Scenario.endpoint false) Scenario.rp2
             "alice" "s2" "https://rp2/bc_logout" "rp2" "ES256");
      [reflexivity | reflexivity | left; reflexivity].
  - apply (do_back_channel_logout_token (Scenario.endpoint false) Cases.rp5
             "alice" "s2" "https://rp5/bc_logout" "rp5" "RS256");
      [reflexivity | reflexivity | right; split; [reflexivity|]].
    exists []. reflexivity.
Defined.

(** X13. What [do_back_channel_logout] raises when something is missing,
    in the order it looks: [KeyError] for the [backchannel_logout_uri];
    then, for a client without a registered algorithm, [KeyError] when
    the provider lists no supported algorithms and [IndexError] when the
    list is empty; then [KeyError] for the [client_id]. *)
Theorem do_back_channel_logout_errors (self : Session) (cinfo : ClientInfo)
  (sub sid : string) :
  (backchannel_logout_uri cinfo = None ->
   do_back_channel_logout self cinfo sub sid
   = Raise (KeyError "backchannel_logout_uri"))
  ∧ (is_Some (backchannel_logout_uri cinfo) ->
     id_token_signed_response_alg cinfo = None ->
     (id_token_signing_alg_values_supported (endpoint_context self) = None ->
      do_back_channel_logout self cinfo sub sid
      = Raise (KeyError "id_token_signing_alg_values_supported"))
     ∧ (id_token_signing_alg_values_supported (endpoint_context self) = Some [] ->
        do_back_channel_logout self cinfo sub sid = Raise IndexError))
  ∧ (is_Some (backchannel_logout_uri cinfo) ->
     is_Some (id_token_signed_response_alg cinfo) ->
     ci_client_id cinfo = None ->
     do_back_channel_logout self cinfo sub sid = Raise (KeyError "client_id")).
Proof.
  unfold do_back_channel_logout. cbv zeta. split; [|split].
  - now intros ->.
  - intros [uri ->] ->. split; now intros ->.
  - intros [uri ->] [alg ->] ->. reflexivity.
Qed.

Lemma do_back_channel_logout_errors_witness :
  do_back_channel_logout (Scenario.endpoint false) Scenario.rp1 "alice" "s1"
  = Raise (KeyError "backchannel_logout_uri")
  ∧ do_back_channel_logout
      (Cases.provider Scenario.dealer (fun value => Ok {["sid" := value]})
         ∅ ∅ (Scenario.sso false) (Some []) None (fun _ _ _ => 200%Z) None)
      Cases.rp5 "alice" "s1"
    = Raise IndexError
  ∧ do_back_channel_logout (Scenario.endpoint false) Cases.rp6 "alice" "s1"
    = Raise (KeyError "client_id").
Proof.
  split; [|split].
  - destruct (do_back_channel_logout_errors (Scenario.endpoint false)
                Scenario.rp1 "alice" "s1") as (Huri & _ & _).
    apply Huri. reflexivity.
  - destruct (do_back_channel_logout_errors
                (Cases.provider Scenario.dealer
                   (fun value => Ok {["sid" := value]})
                   ∅ ∅ (Scenario.sso false) (Some []) None
                   (fun _ _ _ => 200%Z) None)
                Cases.rp5 "alice" "s1") as (_ & Halg & _).
    destruct Halg as [_ Hempty]; [eexists; reflexivity | reflexivity |].
    apply Hempty. reflexivity.
  - destruct (do_back_channel_logout_errors (Scenario.endpoint false)
                Cases.rp6 "alice" "s1") as (_ & _ & Hrecv).
    apply Hrecv; [eexists; reflexivity | eexists; reflexivity | reflexivity].
Defined.

(** *** All-clients logout, further *)

Lemma logout_all_clients_inv (self : Session) (sid client_id : string)
  (fc : list string) :
  outcome (logout_all_clients self sid client_id) = Ok fc ->
  ∃ cs bc, client_sid self sid = Ok cs
           ∧ for_each (classify_client self) cs ([], []) = Ok (bc, fc).
Proof.
  unfold logout_all_clients.
  destruct (client_sid self sid) as [cs|e] eqn:Hcs;
    [|rewrite (lift_bind_raise _ _ e eq_refl); discriminate].
  rewrite (lift_bind _ _ cs eq_refl).
  destruct (for_each (classify_client self) cs ([], [])) as [[bc fc']|e]
    eqn:Hclassify; [|rewrite (lift_bind_raise _ _ e eq_refl); discriminate].
  rewrite (lift_bind _ _ (bc, fc') eq_refl).
  destruct (deliver_all_run self bc) as [Ho _].
  destruct (io_bind_ok (io_for_each (deliver_logout_token self) bc)
              (fun _ => mret fc') tt Ho) as [-> _].
  intros [= <-]. now exists cs, bc.
Qed.

(** X14. Every target is classified before the first request is sent:
    when collecting the targets raises, or classifying one of them does
    (a session of the user that is not in the store, a client that is
    not registered, a token that cannot be built), [logout_all_clients]
    raises that exception and has sent nothing and logged nothing, also
    not to the targets before the one that failed. *)
Theorem logout_all_clients_classifies_first (self : Session)
  (sid client_id : string) (e : exn) :
  (client_sid self sid = Raise e
   ∨ ∃ cs, client_sid self sid = Ok cs
           ∧ for_each (classify_client self) cs ([], []) = Raise e) ->
  logout_all_clients self sid client_id = IO (Raise e) [].
Proof.
  unfold logout_all_clients. intros [Hcs | (cs & Hcs & Hclassify)].
  - now rewrite (lift_bind_raise _ _ e Hcs).
  - rewrite (lift_bind _ _ cs Hcs).
    now rewrite (lift_bind_raise _ _ e Hclassify).
Qed.

Lemma logout_all_clients_classifies_first_witness :
  logout_all_clients
    (Cases.provider Scenario.dealer (fun value => Ok {["sid" := value]})
       (cdb (Scenario.context false)) Cases.sessions
       {| get_uid_by_sid := fun _ => "alice";
          get_sids_by_uid := fun _ => ["s2"; "s9"];
          get_sub_by_sid := fun _ => "alice";
          get_sids_by_sub := fun _ => ["s2"; "s9"] |}
       (Some ["RS256"]) None (fun _ _ _ => 200%Z) (Some "RS256"))
    "s2" "rp2"
  = IO (Raise (KeyError "rp9")) [].
Proof.
  apply (logout_all_clients_classifies_first
           (Cases.provider Scenario.dealer
              (fun value => Ok {["sid" := value]})
              (cdb (Scenario.context false)) Cases.sessions
              {| get_uid_by_sid := fun _ => "alice";
                 get_sids_by_uid := fun _ => ["s2"; "s9"];
                 get_sub_by_sid := fun _ => "alice";
                 get_sids_by_sub := fun _ => ["s2"; "s9"] |}
              (Some ["RS256"]) None (fun _ _ _ => 200%Z) (Some "RS256"))
           "s2" "rp2" (KeyError "rp9")).
  right. exists [("rp2", "s2"); ("rp9", "s9")].
  split; vm_compute; reflexivity.
Defined.

(** X15. The delivery of one logout token logs the attempt and posts
    [logout_token=] and the token to the URL, with the context's
    [verify_ssl]; an answer below 300 is then logged as a logout, one
    from 400 on as a failure, and one from 300 to 399 is not logged at
    all. *)
Theorem deliver_logout_token_verdict (self : Session) (_cid _url sjwt : string) :
  let status_code :=
    httpc_post (endpoint_context self) _url ("logout_token=" +:+ sjwt)
      (verify_ssl (endpoint_context self)) in
  let attempt :=
    [LogInfo ("logging out from " +:+ _cid +:+ " at " +:+ _url);
     HttpPost _url ("logout_token=" +:+ sjwt)
       (verify_ssl (endpoint_context self))] in
  ((status_code < 300)%Z ->
   trace (deliver_logout_token self (_cid, (_url, sjwt)))
   = attempt ++ [LogInfo ("Logged out from " +:+ _cid)])
  ∧ ((300 <= status_code < 400)%Z ->
     trace (deliver_logout_token self (_cid, (_url, sjwt))) = attempt)
  ∧ ((400 <= status_code)%Z ->
     trace (deliver_logout_token self (_cid, (_url, sjwt)))
     = attempt ++ [LogInfo ("failed to logout from " +:+ _cid)]).
Proof.
  cbv zeta. unfold deliver_logout_token. cbv zeta.
  cbn [mbind io_mbind io_bind emit outcome trace].
  split; [|split]; intros H.
  - destruct (Z.ltb_spec (httpc_post (endpoint_context self) _url
                            ("logout_token=" +:+ sjwt)
                            (verify_ssl (endpoint_context self))) 300);
      [reflexivity | lia].
  - destruct (Z.ltb_spec (httpc_post (endpoint_context self) _url
                            ("logout_token=" +:+ sjwt)
                            (verify_ssl (endpoint_context self))) 300);
      [lia|].
    destruct (Z.geb_spec (httpc_post (endpoint_context self) _url
                            ("logout_token=" +:+ sjwt)
                            (verify_ssl (endpoint_context self))) 400);
      [lia | reflexivity].
  - destruct (Z.ltb_spec (httpc_post (endpoint_context self) _url
                            ("logout_token=" +:+ sjwt)
                            (verify_ssl (endpoint_context self))) 300);
      [lia|].
    destruct (Z.geb_spec (httpc_post (endpoint_context self) _url
                            ("logout_token=" +:+ sjwt)
                            (verify_ssl (endpoint_context self))) 400);
      [reflexivity | lia].
Qed.

Lemma deliver_logout_token_verdict_witness :
  trace (deliver_logout_token Cases.endpoint ("rp2", ("https://rp2/bc_logout", "a.b.c")))
  = [LogInfo "logging out from rp2 at https://rp2/bc_logout";
     HttpPost "https://rp2/bc_logout" "logout_token=a.b.c" true]
  ∧ trace (deliver_logout_token (Scenario.endpoint false)
             ("rp2", ("https://rp2/bc_logout", "a.b.c")))
    = [LogInfo "logging out from rp2 at https://rp2/bc_logout";
       HttpPost "https://rp2/bc_logout" "logout_token=a.b.c" true;
       LogInfo "failed to logout from rp2"].
Proof.
  split.
  - destruct (deliver_logout_token_verdict Cases.endpoint "rp2"
                "https://rp2/bc_logout" "a.b.c") as (_ & Hsilent & _).
    apply Hsilent. vm_compute. split; [discriminate | reflexivity].
  - destruct (deliver_logout_token_verdict (Scenario.endpoint false) "rp2"
                "https://rp2/bc_logout" "a.b.c") as (_ & _ & Hfailed).
    apply Hfailed. vm_compute. discriminate.
Defined.

Lemma do_back_channel_logout_uri (self : Session) (cinfo : ClientInfo)
  (sub sid : string) (spec : string * string) :
  do_back_channel_logout self cinfo sub sid = Ok spec ->
  backchannel_logout_uri cinfo = Some (fst spec).
Proof.
  unfold do_back_channel_logout. cbv zeta.
  destruct (backchannel_logout_uri cinfo) as [uri|]; [|discriminate].
  result_step.
  destruct (match id_token_signed_response_alg cinfo with
            | Some alg => Ok alg
            | None => _
            end) as [alg|e]; [|discriminate].
  result_step.
  destruct (ci_client_id cinfo) as [recv|]; [|discriminate].
  result_step. now intros [= <-].
Qed.

Lemma notified_back_iff (self : Session) (cs : list (string * string))
  (bc : list (string * (string * string))) (fc : list string)
  (cid : string) (spec : string * string) :
  notified self cs bc fc ->
  (cid, spec) ∈ bc
  <-> ∃ csid cinfo,
        (cid, csid) ∈ cs
        ∧ cdb (endpoint_context self) !! cid = Some cinfo
        ∧ is_Some (backchannel_logout_uri cinfo)
        ∧ do_back_channel_logout self cinfo
            (get_sub_by_sid (sso_db (endpoint_context self)) csid) csid
          = Ok spec.
Proof.
  induction 1 as [|cid' csid' cinfo' spec' targets bc fc Hcinfo Hbc Hspec _ IH
                  |cid' csid' cinfo' iframe targets bc fc Hcinfo Hbc Hfc Hiframe _ IH
                  |cid' csid' cinfo' targets bc fc Hcinfo Hbc Hfc _ IH].
  - split; [intros H; now apply elem_of_nil in H|].
    intros (csid & cinfo & H & _). now apply elem_of_nil in H.
  - rewrite elem_of_cons, IH. split.
    + intros [[= -> ->] | (csid & cinfo & Hin & H)].
      * exists csid', cinfo'. split; [apply list_elem_of_here | easy].
      * exists csid, cinfo. split; [now apply list_elem_of_further | easy].
    + intros (csid & cinfo & Hin & Hc & Hb & Hs).
      apply elem_of_cons in Hin as [[= -> ->] | Hin].
      * left. f_equal. congruence.
      * right. now exists csid, cinfo.
  - rewrite IH. split.
    + intros (csid & cinfo & Hin & H).
      exists csid, cinfo. split; [now apply list_elem_of_further | easy].
    + intros (csid & cinfo & Hin & Hc & Hb & Hs).
      apply elem_of_cons in Hin as [[= -> ->] | Hin].
      * rewrite Hcinfo in Hc. injection Hc as <-.
        rewrite Hbc in Hb. now destruct Hb.
      * now exists csid, cinfo.
  - rewrite IH. split.
    + intros (csid & cinfo & Hin & H).
      exists csid, cinfo. split; [now apply list_elem_of_further | easy].
    + intros (csid & cinfo & Hin & Hc & Hb & Hs).
      apply elem_of_cons in Hin as [[= -> ->] | Hin].
      * rewrite Hcinfo in Hc. injection Hc as <-.
        rewrite Hbc in Hb. now destruct Hb.
      * now exists csid, cinfo.
Qed.

Lemma notified_front_iff (self : Session) (cs : list (string * string))
  (bc : list (string * (string * string))) (fc : list string)
  (iframe : string) :
  notified self cs bc fc ->
  iframe ∈ fc
  <-> ∃ cid csid cinfo,
        (cid, csid) ∈ cs
        ∧ cdb (endpoint_context self) !! cid = Some cinfo
        ∧ backchannel_logout_uri cinfo = None
        ∧ is_Some (frontchannel_logout_uri cinfo)
        ∧ do_front_channel_logout_iframe cinfo
            (issuer (endpoint_context self)) csid = Ok iframe.
Proof.
  induction 1 as [|cid' csid' cinfo' spec' targets bc fc Hcinfo Hbc Hspec _ IH
                  |cid' csid' cinfo' iframe' targets bc fc Hcinfo Hbc Hfc Hiframe _ IH
                  |cid' csid' cinfo' targets bc fc Hcinfo Hbc Hfc _ IH].
  - split; [intros H; now apply elem_of_nil in H|].
    intros (cid & csid & cinfo & H & _). now apply elem_of_nil in H.
  - rewrite IH. split.
    + intros (cid & csid & cinfo & Hin & H).
      exists cid, csid, cinfo. split; [now apply list_elem_of_further | easy].
    + intros (cid & csid & cinfo & Hin & Hc & Hb & Hf & Hi).
      apply elem_of_cons in Hin as [[= -> ->] | Hin].
      * rewrite Hcinfo in Hc. injection Hc as <-.
        rewrite Hb in Hbc. now destruct Hbc.
      * now exists cid, csid, cinfo.
  - rewrite elem_of_cons, IH. split.
    + intros [-> | (cid & csid & cinfo & Hin & H)].
      * exists cid', csid', cinfo'. split; [apply list_elem_of_here | easy].
      * exists cid, csid, cinfo.
        split; [now apply list_elem_of_further | easy].
    + intros (cid & csid & cinfo & Hin & Hc & Hb & Hf & Hi).
      apply elem_of_cons in Hin as [[= -> ->] | Hin].
      * left. congruence.
      * right. now exists cid, csid, cinfo.
  - rewrite IH. split.
    + intros (cid & csid & cinfo & Hin & H).
      exists cid, csid, cinfo. split; [now apply list_elem_of_further | easy].
    + intros (cid & csid & cinfo & Hin & Hc & Hb & Hf & Hi).
      apply elem_of_cons in Hin as [[= -> ->] | Hin].
      * rewrite Hcinfo in Hc. injection Hc as <-.
        rewrite Hfc in Hf. now destruct Hf.
      * now exists cid, csid, cinfo.
Qed.

Lemma notified_length (self : Session) (cs : list (string * string))
  (bc : list (string * (string * string))) (fc : list string) :
  notified self cs bc fc -> length bc + length fc <= length cs.
Proof. induction 1; cbn [length]; lia. Qed.

(** What a successful all-clients logout went through. *)
Lemma logout_all_clients_notified (self : Session) (sid client_id : string)
  (cs : list (string * string)) (fc : list string) :
  client_sid self sid = Ok cs ->
  outcome (logout_all_clients self sid client_id) = Ok fc ->
  ∃ bc, notified self cs bc fc
        ∧ posts (trace (logout_all_clients self sid client_id)) = post_of <$> bc.
Proof.
  intros Hcs Hout.
  destruct (logout_all_clients_inv _ _ _ _ Hout) as (cs' & bc & Hcs' & Hclassify).
  rewrite Hcs in Hcs'. injection Hcs' as <-.
  destruct (collect_client_sid self _ [] cs Hcs) as [Hnodup _]; [constructor|].
  destruct (classify_clients_notified self cs [] bc [] fc Hclassify Hnodup)
    as (bcn & fcn & -> & -> & Hnot).
  { intros k _ Hin. now apply elem_of_nil in Hin. }
  exists bcn. split; [exact Hnot|].
  now destruct (logout_all_clients_run self sid client_id cs _ _ Hcs Hclassify).
Qed.

(** X16. In an all-clients logout that returns, the requests sent are
    exactly the logout tokens of the targets that registered a
    [backchannel_logout_uri]: each goes to that URI, with the token built
    for the target's own session and subject, and nothing is posted
    anywhere else. *)
Theorem logout_all_clients_posts (self : Session) (sid client_id : string)
  (cs : list (string * string)) (fc : list string) (url data : string) :
  client_sid self sid = Ok cs ->
  outcome (logout_all_clients self sid client_id) = Ok fc ->
  (url, data) ∈ posts (trace (logout_all_clients self sid client_id))
  <-> ∃ cid csid cinfo sjwt,
        (cid, csid) ∈ cs
        ∧ cdb (endpoint_context self) !! cid = Some cinfo
        ∧ backchannel_logout_uri cinfo = Some url
        ∧ do_back_channel_logout self cinfo
            (get_sub_by_sid (sso_db (endpoint_context self)) csid) csid
          = Ok (url, sjwt)
        ∧ data = "logout_token=" +:+ sjwt.
Proof.
  intros Hcs Hout.
  destruct (logout_all_clients_notified _ _ _ _ _ Hcs Hout) as (bc & Hnot & ->).
  rewrite list_elem_of_fmap. split.
  - intros ([cid [u sjwt]] & [= -> ->] & Hin).
    apply (notified_back_iff self cs bc fc cid (u, sjwt) Hnot) in Hin
      as (csid & cinfo & Hin & Hcinfo & _ & Hspec).
    exists cid, csid, cinfo, sjwt.
    repeat split; try assumption.
    apply (do_back_channel_logout_uri _ _ _ _ _ Hspec).
  - intros (cid & csid & cinfo & sjwt & Hin & Hcinfo & Hbc & Hspec & ->).
    exists (cid, (url, sjwt)). split; [reflexivity|].
    apply (notified_back_iff self cs bc fc cid (url, sjwt) Hnot).
    exists csid, cinfo. repeat split; try assumption.
    rewrite Hbc. now eexists.
Qed.

Lemma logout_all_clients_posts_witness :
  ("https://rp2/bc_logout", "logout_token=ES256.logout,alice,s2.rp2")
  ∈ posts (trace (logout_all_clients (Scenario.endpoint false) "s1" "rp1")).
Proof.
  apply (logout_all_clients_posts (Scenario.endpoint false) "s1" "rp1"
           [("rp1", "s1"); ("rp2", "s2"); ("rp3", "s3")]
           ["<iframe src=" +:+ dquote
            +:+ "https://rp1/logout?iss=https%3A%2F%2Fop.example.com&sid=s1"
            +:+ dquote +:+ ">";
            "<iframe src=" +:+ dquote +:+ "https://rp3/logout" +:+ dquote
            +:+ ">"]);
    [vm_compute; reflexivity | vm_compute; reflexivity |].
  exists "rp2", "s2", Scenario.rp2, "ES256.logout,alice,s2.rp2".
  split; [apply list_elem_of_further, list_elem_of_here|].
  repeat split; vm_compute; reflexivity.
Defined.

(** X17. In an all-clients logout that returns, the iframes returned are
    exactly those of the targets that registered a
    [frontchannel_logout_uri] and no [backchannel_logout_uri], each built
    for the target's own session. *)
Theorem logout_all_clients_iframes (self : Session) (sid client_id : string)
  (cs : list (string * string)) (fc : list string) (iframe : string) :
  client_sid self sid = Ok cs ->
  outcome (logout_all_clients self sid client_id) = Ok fc ->
  iframe ∈ fc
  <-> ∃ cid csid cinfo,
        (cid, csid) ∈ cs
        ∧ cdb (endpoint_context self) !! cid = Some cinfo
        ∧ backchannel_logout_uri cinfo = None
        ∧ is_Some (frontchannel_logout_uri cinfo)
        ∧ do_front_channel_logout_iframe cinfo
            (issuer (endpoint_context self)) csid = Ok iframe.
Proof.
  intros Hcs Hout.
  destruct (logout_all_clients_notified _ _ _ _ _ Hcs Hout) as (bc & Hnot & _).
  now apply (notified_front_iff self cs bc fc iframe).
Qed.

Lemma logout_all_clients_iframes_witness :
  ("<iframe src=" +:+ dquote +:+ "https://rp3/logout" +:+ dquote +:+ ">")
  ∈ ["<iframe src=" +:+ dquote
     +:+ "https://rp1/logout?iss=https%3A%2F%2Fop.example.com&sid=s1"
     +:+ dquote +:+ ">";
     "<iframe src=" +:+ dquote +:+ "https://rp3/logout" +:+ dquote +:+ ">"].
Proof.
  apply (logout_all_clients_iframes (Scenario.endpoint false) "s1" "rp1"
           [("rp1", "s1"); ("rp2", "s2"); ("rp3", "s3")]);
    [vm_compute; reflexivity | vm_compute; reflexivity |].
  exists "rp3", "s3", Scenario.rp3.
  split; [apply list_elem_of_further, list_elem_of_further, list_elem_of_here|].
  repeat split; try (vm_compute; reflexivity). eexists. reflexivity.
Defined.

Lemma dict_set_length {V : Type} (k : string) (v : V) (d : list (string * V)) :
  length (dict_set k v d) <= S (length d).
Proof.
  induction d as [|[k' v'] d IH]; cbn [dict_set length]; [lia|].
  destruct (String.eqb k k'); cbn [length]; lia.
Qed.

Lemma collect_client_sid_length (self : Session) (sids : list string)
  (acc cs : list (string * string)) :
  for_each
    (fun _client_sid usid =>
       session ← getitem usid (sdb (endpoint_context self) !! usid);
       Ok (dict_set (authn_req_client_id session) usid _client_sid))
    sids acc = Ok cs ->
  length cs <= length acc + length sids.
Proof.
  revert acc. induction sids as [|usid sids IH]; intros acc Hrun.
  - injection Hrun as <-. cbn [length]. lia.
  - cbn [for_each] in Hrun.
    destruct (sdb (endpoint_context self) !! usid) as [session|];
      [|discriminate Hrun].
    result_step in Hrun. apply IH in Hrun.
    pose proof (dict_set_length (authn_req_client_id session) usid acc).
    cbn [length]. lia.
Qed.

(** Target by target: what was sent and returned for each. *)
Lemma notified_per_target (self : Session) (cs : list (string * string))
  (bc : list (string * (string * string))) (fc : list string) :
  notified self cs bc fc ->
  ∃ sent : list (list (string * string) * list string),
    Forall2
      (fun target ns =>
         length (fst ns) + length (snd ns) <= 1
         ∧ (forall url data, (url, data) ∈ fst ns ->
              ∃ cinfo sjwt,
                cdb (endpoint_context self) !! fst target = Some cinfo
                ∧ do_back_channel_logout self cinfo
                    (get_sub_by_sid (sso_db (endpoint_context self))
                       (snd target)) (snd target) = Ok (url, sjwt)
                ∧ data = "logout_token=" +:+ sjwt)
         ∧ (forall iframe, iframe ∈ snd ns ->
              ∃ cinfo,
                cdb (endpoint_context self) !! fst target = Some cinfo
                ∧ do_front_channel_logout_iframe cinfo
                    (issuer (endpoint_context self)) (snd target)
                  = Ok iframe))
      cs sent
    ∧ post_of <$> bc = concat (fst <$> sent)
    ∧ fc = concat (snd <$> sent).
Proof.
  induction 1 as [|cid csid cinfo spec targets bc fc Hcinfo Hbc Hspec _ IH
                  |cid csid cinfo iframe targets bc fc Hcinfo Hbc Hfc Hiframe _ IH
                  |cid csid cinfo targets bc fc Hcinfo Hbc Hfc _ IH].
  - exists []. split; [constructor | split; reflexivity].
  - destruct IH as (sent & Hall & Hposts & Hframes).
    exists (([post_of (cid, spec)], []) :: sent).
    split; [|split].
    + constructor; [|exact Hall]. cbn [fst snd length]. split; [lia|].
      split.
      * intros url data Hin. apply list_elem_of_singleton in Hin.
        destruct spec as [u sjwt]. injection Hin as -> ->.
        now exists cinfo, sjwt.
      * intros frame Hin. now apply elem_of_nil in Hin.
    + cbn [fmap list_fmap concat fst app]. f_equal. exact Hposts.
    + cbn [fmap list_fmap concat snd app]. exact Hframes.
  - destruct IH as (sent & Hall & Hposts & Hframes).
    exists (([], [iframe]) :: sent).
    split; [|split].
    + constructor; [|exact Hall]. cbn [fst snd length]. split; [lia|].
      split.
      * intros url data Hin. now apply elem_of_nil in Hin.
      * intros frame Hin. apply list_elem_of_singleton in Hin. subst.
        now exists cinfo.
    + cbn [fmap list_fmap concat fst app]. exact Hposts.
    + cbn [fmap list_fmap concat snd app]. f_equal. exact Hframes.
  - destruct IH as (sent & Hall & Hposts & Hframes).
    exists (([], []) :: sent).
    split; [|split].
    + constructor; [|exact Hall]. cbn [fst snd length]. split; [lia|].
      split; intros ? **; match goal with H : _ ∈ [] |- _ =>
                                     now apply elem_of_nil in H end.
    + cbn [fmap list_fmap concat fst app]. exact Hposts.
    + cbn [fmap list_fmap concat snd app]. exact Hframes.
Qed.

(** X18. An all-clients logout that returns has dealt with its targets
    one by one, no two of them with the same client and no more of them
    than the user has sessions: what it sent and what it returned divide,
    in order, into a part for each target, and the part of a target is at
    most one notification, a request that carries the logout token of
    that target's session or an iframe for that target's session. *)
Theorem logout_all_clients_at_most_once (self : Session) (sid client_id : string)
  (cs : list (string * string)) (fc : list string) :
  client_sid self sid = Ok cs ->
  outcome (logout_all_clients self sid client_id) = Ok fc ->
  (∃ sent : list (list (string * string) * list string),
     Forall2
       (fun target ns =>
          length (fst ns) + length (snd ns) <= 1
          ∧ (forall url data, (url, data) ∈ fst ns ->
               ∃ cinfo sjwt,
                 cdb (endpoint_context self) !! fst target = Some cinfo
                 ∧ do_back_channel_logout self cinfo
                     (get_sub_by_sid (sso_db (endpoint_context self))
                        (snd target)) (snd target) = Ok (url, sjwt)
                 ∧ data = "logout_token=" +:+ sjwt)
          ∧ (forall iframe, iframe ∈ snd ns ->
               ∃ cinfo,
                 cdb (endpoint_context self) !! fst target = Some cinfo
                 ∧ do_front_channel_logout_iframe cinfo
                     (issuer (endpoint_context self)) (snd target)
                   = Ok iframe))
       cs sent
     ∧ posts (trace (logout_all_clients self sid client_id))
       = concat (fst <$> sent)
     ∧ fc = concat (snd <$> sent))
  ∧ NoDup cs.*1
  ∧ length (posts (trace (logout_all_clients self sid client_id))) + length fc
    <= length cs
  ∧ length cs
    <= length (get_sids_by_uid (sso_db (endpoint_context self))
                 (get_uid_by_sid (sso_db (endpoint_context self)) sid)).
Proof.
  intros Hcs Hout.
  destruct (logout_all_clients_notified _ _ _ _ _ Hcs Hout) as (bc & Hnot & ->).
  split; [|split; [|split]].
  - destruct (notified_per_target self cs bc fc Hnot)
      as (sent & Hall & Hposts & Hframes).
    exists sent. now repeat split.
  - now destruct (collect_client_sid self _ [] cs Hcs) as [Hnodup _];
      [constructor|].
  - rewrite length_fmap. now apply (notified_length self).
  - apply (collect_client_sid_length self) in Hcs. cbn [length] in Hcs. lia.
Qed.

Lemma logout_all_clients_at_most_once_witness :
  ∃ sent : list (list (string * string) * list string),
    length sent = 3
    ∧ Forall (fun ns => length (fst ns) + length (snd ns) <= 1) sent
    ∧ posts (trace (logout_all_clients (Scenario.endpoint true) "s1" "rp1"))
      = concat (fst <$> sent)
    ∧ ["<iframe src=" +:+ dquote
       +:+ "https://rp1/logout?iss=https%3A%2F%2Fop.example.com&sid=s4"
       +:+ dquote +:+ ">";
       "<iframe src=" +:+ dquote +:+ "https://rp3/logout" +:+ dquote +:+ ">"]
      = concat (snd <$> sent).
Proof.
  destruct (logout_all_clients_at_most_once (Scenario.endpoint true) "s1" "rp1"
              [("rp1", "s4"); ("rp2", "s2"); ("rp3", "s3")]
              ["<iframe src=" +:+ dquote
               +:+ "https://rp1/logout?iss=https%3A%2F%2Fop.example.com&sid=s4"
               +:+ dquote +:+ ">";
               "<iframe src=" +:+ dquote +:+ "https://rp3/logout" +:+ dquote
               +:+ ">"])
    as ((sent & Hall & Hposts & Hframes) & _);
    [vm_compute; reflexivity | vm_compute; reflexivity |].
  exists sent. split; [|split; [|split; [exact Hposts | exact Hframes]]].
  - symmetry. apply (Forall2_length _ _ _ Hall).
  - clear Hposts Hframes.
    induction Hall as [|target ns targets sent [Hlen _] _ IH];
      constructor; assumption.
Defined.

(** *** The two scopes of [do_verified_logout] *)

(** X19. With [alla] set, [do_verified_logout] never returns [None]: what
    it returns is a list, and for a user without sessions it is the empty
    list, with nothing sent. *)
Theorem do_verified_logout_all_returns_list (self : Session)
  (sid client_id : string) :
  (forall r, outcome (do_verified_logout self sid client_id true) = Ok r ->
             ∃ iframes, r = Some iframes)
  ∧ (get_sids_by_uid (sso_db (endpoint_context self))
       (get_uid_by_sid (sso_db (endpoint_context self)) sid) = [] ->
     do_verified_logout self sid client_id true = IO (Ok (Some [])) []).
Proof.
  split.
  - intros r. unfold do_verified_logout.
    destruct (outcome (logout_all_clients self sid client_id)) as [fc|e] eqn:Hout.
    + destruct (io_bind_ok (logout_all_clients self sid client_id)
                  (fun _iframes => mret (Some _iframes)) fc Hout) as [-> _].
      intros [= <-]. now exists fc.
    + unfold mbind, io_mbind, io_bind. rewrite Hout. discriminate.
  - intros Hnone. unfold do_verified_logout, logout_all_clients.
    assert (Hcs : client_sid self sid = Ok []).
    { unfold client_sid. cbv zeta. now rewrite Hnone. }
    rewrite (lift_bind _ _ [] Hcs). reflexivity.
Qed.

Lemma do_verified_logout_all_returns_list_witness :
  do_verified_logout
    (Cases.provider Scenario.dealer (fun value => Ok {["sid" := value]})
       (cdb (Scenario.context false)) Cases.sessions
       {| get_uid_by_sid := fun _ => "carol";
          get_sids_by_uid := get_sids_by_uid Cases.index;
          get_sub_by_sid := fun _ => "carol";
          get_sids_by_sub := get_sids_by_sub Cases.index |}
       None None (fun _ _ _ => 200%Z) None)
    "s0" "rp1" true
  = IO (Ok (Some [])) [].
Proof.
  destruct (do_verified_logout_all_returns_list
              (Cases.provider Scenario.dealer
                 (fun value => Ok {["sid" := value]})
                 (cdb (Scenario.context false)) Cases.sessions
                 {| get_uid_by_sid := fun _ => "carol";
                    get_sids_by_uid := get_sids_by_uid Cases.index;
                    get_sub_by_sid := fun _ => "carol";
                    get_sids_by_sub := get_sids_by_sub Cases.index |}
                 None None (fun _ _ _ => 200%Z) None)
              "s0" "rp1") as [_ Hempty].
  apply Hempty. reflexivity.
Defined.

(** X20. For a user whose one session is at a client without a back
    channel, the two scopes differ in one case only: when the client
    registered a front channel both return the same single iframe and
    send nothing; when it registered no channel the all-clients logout
    returns the empty list where the single-client logout returns
    [None]. *)
Theorem do_verified_logout_scopes (self : Session) (sid : string)
  (session : SessionInfo) (cinfo : ClientInfo) :
  get_sids_by_uid (sso_db (endpoint_context self))
    (get_uid_by_sid (sso_db (endpoint_context self)) sid) = [sid] ->
  sdb (endpoint_context self) !! sid = Some session ->
  cdb (endpoint_context self) !! authn_req_client_id session = Some cinfo ->
  backchannel_logout_uri cinfo = None ->
  (is_Some (frontchannel_logout_uri cinfo) ->
   do_verified_logout self sid (authn_req_client_id session) true
   = do_verified_logout self sid (authn_req_client_id session) false)
  ∧ (frontchannel_logout_uri cinfo = None ->
     do_verified_logout self sid (authn_req_client_id session) true
     = IO (Ok (Some [])) []
     ∧ do_verified_logout self sid (authn_req_client_id session) false
       = IO (Ok None) []).
Proof.
  intros Hsids Hsession Hcinfo Hbc.
  assert (Hcs : client_sid self sid = Ok [(authn_req_client_id session, sid)]).
  { unfold client_sid. cbv zeta. rewrite Hsids. cbn [for_each].
    now rewrite Hsession. }
  split.
  - intros [uri Huri].
    assert (∃ iframe, do_front_channel_logout_iframe cinfo
                        (issuer (endpoint_context self)) sid = Ok iframe)
      as [iframe Hiframe].
    { unfold do_front_channel_logout_iframe. rewrite Huri. result_step.
      destruct (match frontchannel_logout_session_required cinfo with
                | Some b => b
                | None => false
                end); eexists; reflexivity. }
    unfold do_verified_logout, logout_all_clients, logout_from_client.
    rewrite (lift_bind _ _ _ Hcs).
    rewrite (lift_bind _ _ cinfo) by (now rewrite Hcinfo).
    rewrite Hbc, Huri.
    rewrite bool_decide_eq_false_2 by (intros [? ?]; discriminate).
    rewrite bool_decide_eq_true_2 by (now eexists).
    rewrite (lift_bind _ _ iframe Hiframe).
    rewrite (lift_bind _ _ ([], [iframe])); [reflexivity|].
    cbn [for_each]. unfold classify_client. cbv zeta. rewrite Hcinfo.
    result_step. rewrite Hbc, Huri.
    rewrite bool_decide_eq_false_2 by (intros [? ?]; discriminate).
    rewrite bool_decide_eq_true_2 by (now eexists).
    now rewrite Hiframe.
  - intros Hfc. split.
    + unfold do_verified_logout, logout_all_clients.
      rewrite (lift_bind _ _ _ Hcs).
      rewrite (lift_bind _ _ ([], [])); [reflexivity|].
      cbn [for_each]. unfold classify_client. cbv zeta. rewrite Hcinfo.
      result_step. rewrite Hbc, Hfc.
      now rewrite !bool_decide_eq_false_2 by (intros [? ?]; discriminate).
    + unfold do_verified_logout, logout_from_client.
      rewrite (lift_bind _ _ cinfo) by (now rewrite Hcinfo).
      rewrite Hbc, Hfc.
      now rewrite !bool_decide_eq_false_2 by (intros [? ?]; discriminate).
Qed.

Lemma do_verified_logout_scopes_witness :
  do_verified_logout (Scenario.endpoint false) "s5" "rp4" true
  = IO (Ok (Some [])) []
  ∧ do_verified_logout (Scenario.endpoint false) "s5" "rp4" false
    = IO (Ok None) [].
Proof.
  destruct (do_verified_logout_scopes (Scenario.endpoint false) "s5"
              (Scenario.live "rp4") Scenario.rp4) as [_ Hnone];
    try reflexivity.
  apply Hnone. reflexivity.
Defined.

(** *** The confirmation token on its way back *)

Section SignedJWTProperties.

Variables JWS keys claims : Type.
Variable factory : string -> option JWS.
Variable alg2keytype : string -> string.
Variable get_signing_key : string -> keys.
Variable verify_compact : JWS -> keys -> string -> result claims.

(** X21. A token [process_request] issued is verified by
    [unpack_signed_jwt] with the algorithm it was signed with, the
    endpoint's [signing_alg], and with the key jar's signing keys of
    that algorithm's type, never with an algorithm taken from the token;
    and what is not a JWS is refused with [ValueError] before the
    configuration is looked at. *)
Theorem unpack_signed_jwt_algorithm (self : Session)
  (request : EndSessionRequest) (cookie : option string) (sjwt : string) :
  (process_request self request cookie = Ok sjwt ->
   ∃ alg payload,
     signing_alg self = Some alg
     ∧ sjwt = pack (endpoint_context self)
                {| jwt_iss := issuer (endpoint_context self);
                   jwt_lifetime := 86400; jwt_sign_alg := alg;
                   with_jti := false |}
                payload (issuer (endpoint_context self))
     ∧ forall jws, factory sjwt = Some jws ->
         unpack_signed_jwt JWS keys claims factory alg2keytype get_signing_key
           verify_compact self sjwt
         = verify_compact jws (get_signing_key (alg2keytype alg)) alg)
  ∧ (factory sjwt = None ->
     unpack_signed_jwt JWS keys claims factory alg2keytype get_signing_key
       verify_compact self sjwt
     = Raise (ValueError "Not a signed JWT")).
Proof.
  split.
  - intros Hissued.
    destruct (process_request_inv _ _ _ _ Hissued)
      as (sid & session & cinfo & uri & alg & _ & _ & _ & _ & Halg & ->).
    exists alg, (LogoutConfirmation sid (authn_req_client_id session) uri).
    split; [exact Halg|]. split; [reflexivity|].
    intros jws Hjws. unfold unpack_signed_jwt. now rewrite Hjws, Halg.
  - intros Hnone. unfold unpack_signed_jwt. now rewrite Hnone.
Qed.

End SignedJWTProperties.

Lemma unpack_signed_jwt_algorithm_witness :
  unpack_signed_jwt string string string Cases.factory Cases.alg2keytype
    (fun key_type => key_type) Cases.verify_compact (Scenario.endpoint false)
    "RS256.confirm,s1,rp1,https://rp1/cb.https://op.example.com"
  = Ok "RS256.confirm,s1,rp1,https://rp1/cb.https://op.example.com"
  ∧ unpack_signed_jwt string string string Cases.factory Cases.alg2keytype
      (fun key_type => key_type) Cases.verify_compact (Scenario.endpoint false)
      "confirm,s1,rp1"
    = Raise (ValueError "Not a signed JWT").
Proof.
  split.
  - destruct (unpack_signed_jwt_algorithm string string string Cases.factory
                Cases.alg2keytype (fun key_type => key_type)
                Cases.verify_compact (Scenario.endpoint false)
                (Scenario.no_hint (Some "https://rp1/cb")) (Some "s1")
                "RS256.confirm,s1,rp1,https://rp1/cb.https://op.example.com")
      as [Hissued _].
    destruct Hissued as (alg & payload & Halg & _ & Hverify);
      [vm_compute; reflexivity|].
    injection Halg as <-.
    rewrite (Hverify _ eq_refl). reflexivity.
  - destruct (unpack_signed_jwt_algorithm string string string Cases.factory
                Cases.alg2keytype (fun key_type => key_type)
                Cases.verify_compact (Scenario.endpoint false)
                (Scenario.no_hint None) None "confirm,s1,rp1")
      as [_ Hnone].
    apply Hnone. reflexivity.
Defined.

(** *** Request parsing *)

(** X22. For a request dict with an [id_token_hint] that verifies, sent
    without client authentication, [parse_request] applies the
    provider's algorithm policy: a hint signed with an algorithm outside
    [id_token_signing_alg_values_supported] is refused with
    [JWSException('Unsupported signing algorithm')], and a hint signed
    with a supported one is returned verified, with no client set. *)
Theorem parse_request_algorithm_policy (self : Session) (checks : RequestChecks)
  (d : RequestDict) (auth : option string) (hint : string) (ith : IdToken)
  (supported : list string) :
  d_id_token_hint d = Some hint ->
  client_authentication checks (RequestIsDict d) auth = UnknownOrNoAuthnMethod ->
  verify checks d = Ok (true, Some ith) ->
  id_token_signing_alg_values_supported (endpoint_context self) = Some supported ->
  (it_alg ith ∉ supported ->
   parse_request self checks (Some (RequestIsDict d)) auth
   = Raise (JWSException "Unsupported signing algorithm"))
  ∧ (it_alg ith ∈ supported ->
     parse_request self checks (Some (RequestIsDict d)) auth
     = Ok (ParsedRequest
             {| message := {| id_token_hint := Some hint;
                              verified_id_token_hint := Some ith;
                              post_logout_redirect_uri :=
                                d_post_logout_redirect_uri d;
                              state := d_state d |};
                client_id := d_client_id d;
                access_token := d_access_token d |})).
Proof.
  intros Hhint Hauth Hverify Hsupported.
  assert (Hrun : parse_request self checks (Some (RequestIsDict d)) auth
                 = verify_request self checks (RequestIsDict d)).
  { unfold parse_request. cbv zeta. cbn [request_is_empty].
    rewrite bool_decide_eq_false_2
      by (intros [H _]; rewrite Hhint in H; discriminate).
    now rewrite Hauth. }
  rewrite Hrun. unfold verify_request. rewrite Hverify. result_step.
  cbn [negb]. rewrite Hsupported. result_step. split; intros Halg.
  - now rewrite bool_decide_eq_true_2.
  - rewrite bool_decide_eq_false_2 by (intros H; now apply H).
    now rewrite Hhint.
Qed.

Lemma parse_request_algorithm_policy_witness :
  parse_request (Scenario.endpoint false) Cases.checks
    (Some (RequestIsDict (Cases.hinted "HS256"))) None
  = Raise (JWSException "Unsupported signing algorithm")
  ∧ parse_request (Scenario.endpoint false) Cases.checks
      (Some (RequestIsDict (Cases.hinted "RS256"))) None
    = Ok (ParsedRequest
            {| message := {| id_token_hint := Some "RS256";
                             verified_id_token_hint :=
                               Some {| it_sub := Some "alice"; it_alg := "RS256" |};
                             post_logout_redirect_uri := None;
                             state := None |};
               client_id := None;
               access_token := None |}).
Proof.
  split.
  - destruct (parse_request_algorithm_policy (Scenario.endpoint false)
                Cases.checks (Cases.hinted "HS256") None "HS256"
                {| it_sub := Some "alice"; it_alg := "HS256" |} ["RS256"]
                eq_refl eq_refl eq_refl eq_refl) as [Hrefused _].
    apply Hrefused. intros Hin. apply list_elem_of_singleton in Hin.
    discriminate Hin.
  - destruct (parse_request_algorithm_policy (Scenario.endpoint false)
                Cases.checks (Cases.hinted "RS256") None "RS256"
                {| it_sub := Some "alice"; it_alg := "RS256" |} ["RS256"]
                eq_refl eq_refl eq_refl eq_refl) as [_ Haccepted].
    apply Haccepted. apply list_elem_of_here.
Defined.

Lemma empty_request_dict (d : RequestDict) :
  request_is_empty (Some (RequestIsDict d)) = true -> d = empty_dict.
Proof.
  cbn [request_is_empty]. intros H. apply bool_decide_eq_true in H.
  destruct d as [hint uri st cid tok]. cbn in H.
  destruct H as (-> & -> & -> & -> & ->). reflexivity.
Qed.

(** [parse_request] on a dict: an empty one is replaced by an empty one. *)
Lemma parse_request_dict (self : Session) (checks : RequestChecks)
  (d : RequestDict) (auth : option string) :
  parse_request self checks (Some (RequestIsDict d)) auth
  = match client_authentication checks (RequestIsDict d) auth with
    | UnknownOrNoAuthnMethod => verify_request self checks (RequestIsDict d)
    | AuthnRaises e => Raise e
    | AuthnResponseMessage error => Ok (ParsedResponseMessage error)
    | AuthnInfo auth_client_id auth_token =>
        cid ← getitem "client_id" auth_client_id;
        tok ← getitem "token" auth_token;
        verify_request self checks (set_client (RequestIsDict d) cid tok)
    end.
Proof.
  unfold parse_request. cbv zeta.
  destruct (request_is_empty (Some (RequestIsDict d))) eqn:Hempty;
    [|reflexivity].
  now rewrite (empty_request_dict d Hempty).
Qed.

(** X23. A client that authenticates has its [client_id] and token
    written over whatever the request dict said, before the request is
    verified: when the request so changed verifies, without a hint or
    with a hint signed with a supported algorithm, it is returned with
    the authenticated client and token. A client whose authentication
    is answered with an error message gets that message back and the
    request is not verified. *)
Theorem parse_request_authenticated (self : Session) (checks : RequestChecks)
  (d : RequestDict) (auth : option string) :
  (forall cid tok ith,
     client_authentication checks (RequestIsDict d) auth
     = AuthnInfo (Some cid) (Some tok) ->
     verify checks
       {| d_id_token_hint := d_id_token_hint d;
          d_post_logout_redirect_uri := d_post_logout_redirect_uri d;
          d_state := d_state d;
          d_client_id := Some cid; d_access_token := Some tok |}
     = Ok (true, ith) ->
     (ith = None
      ∨ ∃ verified supported,
          ith = Some verified
          ∧ id_token_signing_alg_values_supported (endpoint_context self)
            = Some supported
          ∧ it_alg verified ∈ supported) ->
     parse_request self checks (Some (RequestIsDict d)) auth
     = Ok (ParsedRequest
             {| message := {| id_token_hint := d_id_token_hint d;
                              verified_id_token_hint := ith;
                              post_logout_redirect_uri :=
                                d_post_logout_redirect_uri d;
                              state := d_state d |};
                client_id := Some cid;
                access_token := Some tok |}))
  ∧ (forall error,
       client_authentication checks (RequestIsDict d) auth
       = AuthnResponseMessage error ->
       parse_request self checks (Some (RequestIsDict d)) auth
       = Ok (ParsedResponseMessage error)).
Proof.
  split.
  - intros cid tok ith Hauth Hverify Hith.
    rewrite parse_request_dict, Hauth. result_step.
    unfold verify_request, set_client. rewrite Hverify. result_step.
    cbn [negb].
    destruct Hith as [-> | (verified & supported & -> & -> & Hin)];
      [reflexivity|].
    result_step. now rewrite bool_decide_eq_false_2 by (intros H; now apply H).
  - intros error Hauth. now rewrite parse_request_dict, Hauth.
Qed.

Lemma parse_request_authenticated_witness :
  parse_request (Scenario.endpoint false) Cases.checks
    (Some (RequestIsDict
             {| d_id_token_hint := Some "RS256";
                d_post_logout_redirect_uri := None; d_state := None;
                d_client_id := Some "rp2"; d_access_token := None |}))
    (Some "Bearer rp1")
  = Ok (ParsedRequest
          {| message := {| id_token_hint := Some "RS256";
                           verified_id_token_hint :=
                             Some {| it_sub := Some "alice"; it_alg := "RS256" |};
                           post_logout_redirect_uri := None;
                           state := None |};
             client_id := Some "rp1";
             access_token := Some "tok1" |})
  ∧ parse_request (Scenario.endpoint false) Cases.checks
      (Some (RequestIsDict
               {| d_id_token_hint := Some "unsigned";
                  d_post_logout_redirect_uri := None; d_state := None;
                  d_client_id := Some "rp2"; d_access_token := None |}))
      (Some "Bearer rp0")
    = Ok (ParsedResponseMessage "invalid_client").
Proof.
  split.
  - destruct (parse_request_authenticated (Scenario.endpoint false)
                Cases.checks
                {| d_id_token_hint := Some "RS256";
                   d_post_logout_redirect_uri := None; d_state := None;
                   d_client_id := Some "rp2"; d_access_token := None |}
                (Some "Bearer rp1")) as [Hclient _].
    apply (Hclient "rp1" "tok1"
             (Some {| it_sub := Some "alice"; it_alg := "RS256" |}));
      [reflexivity | reflexivity |].
    right. exists {| it_sub := Some "alice"; it_alg := "RS256" |}, ["RS256"].
    split; [reflexivity|]. split; [reflexivity | apply list_elem_of_here].
  - destruct (parse_request_authenticated (Scenario.endpoint false)
                Cases.checks
                {| d_id_token_hint := Some "unsigned";
                   d_post_logout_redirect_uri := None; d_state := None;
                   d_client_id := Some "rp2"; d_access_token := None |}
                (Some "Bearer rp0")) as [_ Herror].
    apply Herror. reflexivity.
Defined.

(** X24. A request that reaches [parse_request] as a message and not as
    a dict is returned as it is when the client does not authenticate:
    neither its signature nor the algorithm of its hint is checked. *)
Theorem parse_request_message_unverified (self : Session)
  (checks : RequestChecks) (m : RequestMessage) (auth : option string) :
  request_is_empty (Some (RequestIsMessage m)) = false ->
  client_authentication checks (RequestIsMessage m) auth
  = UnknownOrNoAuthnMethod ->
  parse_request self checks (Some (RequestIsMessage m)) auth
  = Ok (ParsedRequest m).
Proof.
  intros Hfull Hauth. unfold parse_request. cbv zeta.
  now rewrite Hfull, Hauth.
Qed.

Lemma parse_request_message_unverified_witness :
  parse_request (Scenario.endpoint false) Cases.checks
    (Some (RequestIsMessage
             {| message :=
                  {| id_token_hint := Some "HS256";
                     verified_id_token_hint :=
                       Some {| it_sub := Some "bob"; it_alg := "HS256" |};
                     post_logout_redirect_uri := None; state := None |};
                client_id := None; access_token := None |}))
    None
  = Ok (ParsedRequest
          {| message :=
               {| id_token_hint := Some "HS256";
                  verified_id_token_hint :=
                    Some {| it_sub := Some "bob"; it_alg := "HS256" |};
                  post_logout_redirect_uri := None; state := None |};
             client_id := None; access_token := None |}).
Proof.
  apply (parse_request_message_unverified (Scenario.endpoint false)
           Cases.checks); [vm_compute; reflexivity | reflexivity].
Defined.

(** *** Introspection, further *)







